(** * Webscrapper Buddy: a shallow embedding of the scraping pipeline

    The development follows the four source files:
    - [scrape.py]         : [Scrape]        (direct fetch, normaliser, chunker)
    - [parse_llm.py]      : [ParseLlm]      (extraction driver)
    - [advance_scrape.py] : [AdvanceScrape] (provider-delegated fetch)
    - [main.py]           : [Main]          (tabular reconstructor, fetch
                                             classification of the basic page)

    Python [str] values are modelled by [string]; a character is a code
    point below 256, and the character classes of [str.strip],
    [str.split], [str.splitlines] and [str.lower] are the ones Python
    uses on that range.  Python integers are [Z]. *)

From Stdlib Require Import String Ascii List ZArith Lia Bool Arith.
From Stdlib Require Import DecimalString.
Import ListNotations.

Set Warnings "-register-all".

Local Open Scope list_scope.
Local Open Scope string_scope.

(** ** Python strings *)

Module PyStr.

Definition lf : ascii := "010"%char.
Definition cr : ascii := "013"%char.
Definition tab : ascii := "009"%char.
Definition dquote : ascii := "034"%char.

(** The string made of one character. *)
Definition chr (c : ascii) : string := String c EmptyString.

Definition nl : string := chr lf.

Definition is_empty (s : string) : bool :=
  match s with EmptyString => true | String _ _ => false end.

(** [len(s)] *)
Definition len (s : string) : Z := Z.of_nat (String.length s).

(** [str(n)] for an integer. *)
Definition str_of_Z (n : Z) : string := NilZero.string_of_int (Z.to_int n).

(** [str.isspace] on one code point below 256. *)
Definition isspace (c : ascii) : bool :=
  let n := nat_of_ascii c in
  (((9 <=? n) && (n <=? 13)) || ((28 <=? n) && (n <=? 32))
   || (n =? 133) || (n =? 160))%nat.

(** The line boundaries of [str.splitlines] below 256. *)
Definition is_linebreak (c : ascii) : bool :=
  let n := nat_of_ascii c in
  (((10 <=? n) && (n <=? 13)) || ((28 <=? n) && (n <=? 30)) || (n =? 133))%nat.

Fixpoint all_chars (p : ascii -> bool) (s : string) : bool :=
  match s with
  | EmptyString => true
  | String c r => p c && all_chars p r
  end.

(** The first [n] characters, and what is left after them. *)
Fixpoint take (n : nat) (s : string) : string :=
  match n, s with
  | S k, String c r => String c (take k r)
  | _, _ => EmptyString
  end.

Fixpoint drop (n : nat) (s : string) : string :=
  match n, s with
  | S k, String _ r => drop k r
  | _, _ => s
  end.

(** A slice bound as Python normalises it: a negative bound counts from
    the end, and every bound is clamped to [0, len]. *)
Definition slice_bound (length i : Z) : Z :=
  if (i <? 0)%Z then Z.max 0 (i + length) else Z.min i length.

(** [s[i:j]] *)
Definition slice (s : string) (i j : Z) : string :=
  let lo := slice_bound (len s) i in
  let hi := slice_bound (len s) j in
  take (Z.to_nat (hi - lo)) (drop (Z.to_nat lo) s).

(** [sep.join(parts)] *)
Definition join (sep : string) (parts : list string) : string :=
  String.concat sep parts.

(** [s.startswith(p)] *)
Definition startswith (s p : string) : bool := String.prefix p s.

(** [needle in hay] for two strings. *)
Fixpoint contains (needle hay : string) : bool :=
  String.prefix needle hay
  || match hay with
     | EmptyString => false
     | String _ r => contains needle r
     end.

Fixpoint lstrip (s : string) : string :=
  match s with
  | EmptyString => EmptyString
  | String c r => if isspace c then lstrip r else s
  end.

Fixpoint rstrip (s : string) : string :=
  match s with
  | EmptyString => EmptyString
  | String c r =>
      match rstrip r with
      | EmptyString => if isspace c then EmptyString else chr c
      | String _ _ as r' => String c r'
      end
  end.

(** [s.strip()] *)
Definition strip (s : string) : string := rstrip (lstrip s).

(** What a scan has collected when it reaches a boundary. *)
Definition flush (cur : string) : list string :=
  if is_empty cur then [] else [cur].

(** [s.splitlines()]: a left-to-right scan; [cur] is the line being
    read and [after_cr] tells that the previous character was a carriage
    return, so that a line feed right after it belongs to the same
    boundary.  No empty line is produced after a final boundary. *)
Fixpoint splitlines_scan (after_cr : bool) (cur s : string) : list string :=
  match s with
  | EmptyString => flush cur
  | String c r =>
      if after_cr && Ascii.eqb c lf then splitlines_scan false cur r
      else if is_linebreak c
           then cur :: splitlines_scan (Ascii.eqb c cr) EmptyString r
           else splitlines_scan false (cur ++ chr c) r
  end.

Definition splitlines (s : string) : list string :=
  splitlines_scan false EmptyString s.

(** [[line.strip() for line in s.splitlines() if line.strip()]], which
    both the normaliser and the reconstructor build. *)
Definition stripped_lines (s : string) : list string :=
  map strip (filter (fun line => negb (is_empty (strip line))) (splitlines s)).

(** A character that is no line boundary. *)
Definition no_break (c : ascii) : bool := negb (is_linebreak c).

(** A line as [stripped_lines] leaves it. *)
Definition clean_line (line : string) : Prop :=
  is_empty line = false /\ strip line = line /\ all_chars no_break line = true.

(** [s.split()]: the maximal runs of non-whitespace characters. *)
Fixpoint split_scan (cur s : string) : list string :=
  match s with
  | EmptyString => flush cur
  | String c r =>
      if isspace c then (flush cur ++ split_scan EmptyString r)%list
      else split_scan (cur ++ chr c) r
  end.

Definition split (s : string) : list string := split_scan EmptyString s.

(** [str.lower] on one code point below 256: the ASCII capitals and the
    Latin-1 capitals (0xC0-0xDE but the multiplication sign 0xD7). *)
Definition lower_char (c : ascii) : ascii :=
  let n := nat_of_ascii c in
  if (((65 <=? n) && (n <=? 90))
      || ((192 <=? n) && (n <=? 222) && negb (n =? 215)))%nat
  then ascii_of_nat (n + 32) else c.

Fixpoint lower (s : string) : string :=
  match s with
  | EmptyString => EmptyString
  | String c r => String (lower_char c) (lower r)
  end.

End PyStr.

(** ** Python values, exceptions and the outside world *)

Module Py.

(** The values [json.loads] builds, which are also the values a keyword
    option can hold: [None], booleans, numbers, strings, lists and
    dictionaries with string keys (kept in insertion order, keys
    distinct).  Of a float only its being non-zero matters to the code,
    which tests numbers for truth and nothing else. *)
Inductive pyval : Type :=
| PNone
| PBool (b : bool)
| PInt (n : Z)
| PFloat (nonzero : bool)
| PStr (s : string)
| PList (items : list pyval)
| PDict (entries : list (string * pyval)).

Fixpoint lookup {A : Type} (k : string) (entries : list (string * A)) : option A :=
  match entries with
  | [] => None
  | (k', v) :: rest => if String.eqb k k' then Some v else lookup k rest
  end.

(** [bool(v)] *)
Definition truthy (v : pyval) : bool :=
  match v with
  | PNone => false
  | PBool b => b
  | PInt n => negb (n =? 0)%Z
  | PFloat nonzero => nonzero
  | PStr s => negb (PyStr.is_empty s)
  | PList items => match items with [] => false | _ :: _ => true end
  | PDict entries => match entries with [] => false | _ :: _ => true end
  end.

(** The exceptions the code can meet.  [KeyError] carries the missing
    key; the ones that come from outside carry their text. *)
Inductive pyexn : Type :=
| KeyError (key : pyval)
| IndexError
| TypeError
| ValueError
| RequestException (detail : string)
| HTTPError (status : Z)
| AdvancedScraperError (msg : string)
| OtherException (detail : string).

(** [isinstance(e, requests.exceptions.RequestException)]: [HTTPError]
    is one of its subclasses. *)
Definition is_request_exception (e : pyexn) : bool :=
  match e with
  | RequestException _ | HTTPError _ => true
  | _ => false
  end.

(** A computation that returns a value or raises. *)
Inductive result (A : Type) : Type :=
| Returns (a : A)
| Raises (e : pyexn).
Arguments Returns {A} a.
Arguments Raises {A} e.

Definition rbind {A B : Type} (m : result A) (k : A -> result B) : result B :=
  match m with
  | Returns a => k a
  | Raises e => Raises e
  end.

(** *** HTTP requests

    A request is what the code hands to [requests.get] or
    [requests.post]; a response is what the code reads back from it:
    the status, the body text and what [resp.json()] gives (a value, or
    the exception of a body that is not JSON). *)
Inductive http_method : Type := GET | POST.

Record request : Type := mkRequest {
  req_method : http_method;
  req_url : string;
  req_params : list (string * string);
  req_headers : option (list (string * string));
  req_json : option pyval;
  req_timeout : option Z
}.

Record response : Type := mkResponse {
  status_code : Z;
  text : string;
  json : result pyval
}.

(** The network answers a request knowing the requests issued before
    it: a response, or the exception the call raises. *)
Definition network : Type := list request -> request -> result response.

(** A computation that may issue requests: it is given the requests
    issued so far and returns them extended with its own, whether it
    returns or raises. *)
Definition io (A : Type) : Type := list request -> result A * list request.

Definition ret {A : Type} (a : A) : io A := fun log => (Returns a, log).

Definition raise {A : Type} (e : pyexn) : io A := fun log => (Raises e, log).

Definition bind {A B : Type} (m : io A) (k : A -> io B) : io B :=
  fun log =>
    match m log with
    | (Returns a, log') => k a log'
    | (Raises e, log') => (Raises e, log')
    end.

(** A value or exception computed without the network. *)
Definition lift {A : Type} (r : result A) : io A := fun log => (r, log).

(** [try: body / except <caught> as e: handler e]; the requests the
    body issued before it raised stay issued. *)
Definition try_except {A : Type} (body : io A) (caught : pyexn -> bool)
    (handler : pyexn -> io A) : io A :=
  fun log =>
    match body log with
    | (Returns a, log') => (Returns a, log')
    | (Raises e, log') =>
        if caught e then handler e log' else (Raises e, log')
    end.

(** [except Exception]: every exception of the model is one. *)
Definition any_exception (e : pyexn) : bool := true.

(** One call of [requests.get] or [requests.post]. *)
Definition send (net : network) (rq : request) : io response :=
  fun log => (net log rq, (log ++ [rq])%list).

(** [resp.raise_for_status()] *)
Definition raise_for_status (resp : response) : result unit :=
  if ((400 <=? status_code resp) && (status_code resp <? 600))%Z
  then Raises (HTTPError (status_code resp))
  else Returns tt.

(** *** Operators on values *)

(** [v[k]] for a string [k]: a dictionary looks the key up; a list and
    a string take integers only, and nothing else is subscriptable. *)
Definition getitem_key (v : pyval) (k : string) : result pyval :=
  match v with
  | PDict entries =>
      match lookup k entries with
      | Some x => Returns x
      | None => Raises (KeyError (PStr k))
      end
  | _ => Raises TypeError
  end.

(** [v[0]]: the first item of a list, the first character of a string;
    a dictionary of this model has string keys only, so [0] is missing. *)
Definition getitem_0 (v : pyval) : result pyval :=
  match v with
  | PList (x :: _) => Returns x
  | PList [] => Raises IndexError
  | PStr (String c _) => Returns (PStr (PyStr.chr c))
  | PStr EmptyString => Raises IndexError
  | PDict _ => Raises (KeyError (PInt 0))
  | _ => Raises TypeError
  end.

(** [v == needle] for a string [needle]. *)
Definition eq_str (needle : string) (v : pyval) : bool :=
  match v with
  | PStr s => String.eqb s needle
  | _ => false
  end.

(** [needle in v] for a string [needle]: a substring of a string, an
    item of a list, a key of a dictionary; the other values are not
    containers. *)
Definition str_in (needle : string) (v : pyval) : result bool :=
  match v with
  | PStr s => Returns (PyStr.contains needle s)
  | PList items => Returns (existsb (eq_str needle) items)
  | PDict entries =>
      Returns (match lookup needle entries with Some _ => true | None => false end)
  | _ => Raises TypeError
  end.

(** [sep.join(items)]: every item has to be a string. *)
Fixpoint str_items (items : list pyval) : result (list string) :=
  match items with
  | [] => Returns []
  | PStr s :: rest => rbind (str_items rest) (fun ss => Returns (s :: ss))
  | _ :: _ => Raises TypeError
  end.

Definition join_values (sep : string) (items : list pyval) : result string :=
  rbind (str_items items) (fun ss => Returns (PyStr.join sep ss)).

End Py.

Declare Scope io_scope.
Delimit Scope io_scope with io.
Notation "x <- m ;; k" := (Py.bind m (fun x => k))
  (at level 61, m at next level, right associativity) : io_scope.

Module PyRange.
Import Py.

(** The elements of [range(i, stop, step)] for a non-zero [step], at
    most [fuel] of them. *)
Fixpoint range_scan (fuel : nat) (i stop step : Z) : list Z :=
  match fuel with
  | O => []
  | S fuel' =>
      if (if (0 <? step)%Z then (i <? stop)%Z else (stop <? i)%Z)
      then i :: range_scan fuel' (i + step) stop step
      else []
  end.

(** [range(start, stop, step)]: a zero step is a [ValueError]; the
    distance from [start] to [stop] bounds the number of elements. *)
Definition range (start stop step : Z) : result (list Z) :=
  if (step =? 0)%Z then Raises ValueError
  else Returns (range_scan (Z.to_nat (Z.abs (stop - start))) start stop step).

(** How many elements [range(i, stop, step)] has for a positive step. *)
Definition count (i stop step : Z) : nat := Z.to_nat ((stop - i + step - 1) / step).

End PyRange.

(** ** The markup parser

    [BeautifulSoup(markup, "html.parser")] is a library; the code reads
    its result as a tree of tags and strings. *)

Module Soup.

Inductive node : Type :=
| Text (s : string)
| Element (tag : string) (children : list node).

Definition parser : Type := string -> list node.

Definition name_in (names : list string) (tag : string) : bool :=
  existsb (String.eqb tag) names.

(** [for tag in soup(names): tag.extract()]: every element with one of
    the names leaves the tree, with all it contains. *)
Fixpoint extract_all (names : list string) (n : node) : list node :=
  match n with
  | Text s => [Text s]
  | Element tag children =>
      if name_in names tag then []
      else [Element tag (flat_map (extract_all names) children)]
  end.

(** The strings of a tree in document order. *)
Fixpoint strings (n : node) : list string :=
  match n with
  | Text s => [s]
  | Element _ children => flat_map strings children
  end.

(** [soup.get_text(separator=sep)] *)
Definition get_text (sep : string) (doc : list node) : string :=
  PyStr.join sep (flat_map strings doc).

End Soup.

(** ** scrape.py *)

Module Scrape.
Import Py PyStr.
Local Open Scope io_scope.

Section Fetch.

Variable net : network.
(** [str(e)] *)
Variable str_exn : pyexn -> string.

Definition user_agent : string :=
  "Mozilla/5.0 (Windows NT 10.0; Win64; x64) "
  ++ "AppleWebKit/537.36 (KHTML, like Gecko) "
  ++ "Chrome/120.0.0.0 Safari/537.36".

(** The arguments of the [requests.get] of [scrape_website]. *)
Definition page_request (url : string) (timeout : Z) : request :=
  let headers := [("User-Agent", user_agent)] in
  mkRequest GET url [] (Some headers) None (Some timeout).

Definition scrape_website (url : string) (timeout : Z) : io string :=
  try_except
    (resp <- send net (page_request url timeout) ;;
     _ <- lift (raise_for_status resp) ;;
     ret (text resp))
    is_request_exception
    (fun e =>
       ret ("ERROR: Failed to scrape the website." ++ nl
            ++ "Details: " ++ str_exn e)).

End Fetch.

(** The last statement but one of [clean_body_content]: the lines of
    the text, each stripped, the empty ones dropped, joined again. *)
Definition clean_lines (cleaned : string) : string :=
  join nl (stripped_lines cleaned).

Section Normalizer.

Variable html_parser : Soup.parser.

(** The text of the markup once its script and style elements are out:
    the value of [cleaned] after [soup.get_text(separator="\n")]. *)
Definition text_without_scripts (body_content : string) : string :=
  let soup := html_parser body_content in
  let soup := flat_map (Soup.extract_all ["script"; "style"]) soup in
  Soup.get_text nl soup.

Definition clean_body_content (body_content : string) : string :=
  let cleaned := text_without_scripts body_content in
  clean_lines cleaned.

End Normalizer.

Definition default_max_length : Z := 6000.

Definition split_dom_content (dom_content : string) (max_length : Z)
  : result (list string) :=
  rbind (PyRange.range 0 (len dom_content) max_length)
    (fun starts =>
       Returns (map (fun i => slice dom_content i (i + max_length)) starts)).

End Scrape.

(** ** parse_llm.py *)

Module ParseLlm.
Import Py PyStr.
Local Open Scope io_scope.

(** What step 2 of [parse_with_llm] binds for a provider. *)
Record provider_setup : Type := mkSetup {
  model : string;
  base_url : string;
  headers : list (string * string)
}.

Definition configure (provider api_key : string) : option provider_setup :=
  let content_type := ("Content-Type", "application/json") in
  if String.eqb provider "gemini" then
    let model := "gemini-2.0-flash" in
    Some (mkSetup model
            ("https://generativelanguage.googleapis.com/v1beta/models/"
             ++ model ++ ":generateContent?key=" ++ api_key)
            [content_type])
  else if String.eqb provider "groq" then
    Some (mkSetup "llama3-70b-8192"
            "https://api.groq.com/openai/v1/chat/completions"
            [content_type; ("Authorization", "Bearer " ++ api_key)])
  else if String.eqb provider "openai" then
    Some (mkSetup "gpt-4o-mini"
            "https://api.openai.com/v1/chat/completions"
            [content_type; ("Authorization", "Bearer " ++ api_key)])
  else None.

Definition sentinel : string := "NO_DATA".

Definition indent : string := "        ".

Definition make_prompt (parse_description chunk : string) : string :=
  nl ++ indent ++ "Extract the following information: " ++ parse_description
  ++ nl ++ indent ++ "From this content: " ++ chunk
  ++ nl ++ indent
  ++ nl ++ indent ++ "If the information is NOT found, reply exactly with: "
  ++ chr dquote ++ sentinel ++ chr dquote
  ++ nl ++ indent.

Definition make_payload (provider : string) (setup : provider_setup)
    (prompt : string) : pyval :=
  if String.eqb provider "gemini" then
    PDict [("contents", PList [PDict [("parts", PList [PDict [("text", PStr prompt)]])]])]
  else
    PDict [("model", PStr (model setup));
           ("messages", PList [PDict [("role", PStr "user"); ("content", PStr prompt)]])].

Definition no_candidates : string :=
  "Error: Gemini returned no candidates (Safety filter?)".

(** Step 5: the model's text out of the provider's envelope. *)
Definition response_text (provider : string) (data : pyval) : result pyval :=
  if String.eqb provider "gemini" then
    rbind (str_in "candidates" data) (fun present =>
    rbind (if present
           then rbind (getitem_key data "candidates") (fun c => Returns (truthy c))
           else Returns false) (fun usable =>
    if usable then
      rbind (getitem_key data "candidates") (fun candidates =>
      rbind (getitem_0 candidates) (fun candidate =>
      rbind (getitem_key candidate "content") (fun content =>
      rbind (getitem_key content "parts") (fun parts =>
      rbind (getitem_0 parts) (fun part =>
      getitem_key part "text")))))
    else Returns (PStr no_candidates)))
  else
    rbind (getitem_key data "choices") (fun choices =>
    rbind (getitem_0 choices) (fun choice =>
    rbind (getitem_key choice "message") (fun message =>
    getitem_key message "content"))).

(** [not chunk.strip()] *)
Definition blank (chunk : string) : bool := is_empty (strip chunk).

(** The three ways the reading of a [200] response can raise: the body
    is not JSON, the envelope lacks the path to the text, the text is
    not a container the sentinel can be looked for in. *)
Definition reading_raises (provider : string) (resp : response) (e : pyexn)
  : Prop :=
  json resp = Raises e
  \/ (exists data, json resp = Returns data
                   /\ response_text provider data = Raises e)
  \/ (exists data result_text,
        json resp = Returns data
        /\ response_text provider data = Returns result_text
        /\ str_in sentinel result_text = Raises e).

Section Driver.

Variable net : network.
(** [str(e)] *)
Variable str_exn : pyexn -> string.

Definition chunk_request (provider : string) (setup : provider_setup)
    (parse_description chunk : string) : request :=
  mkRequest POST (base_url setup) []
    (if negb (String.eqb provider "gemini") then Some (headers setup) else None)
    (Some (make_payload provider setup (make_prompt parse_description chunk)))
    None.

Definition error_msg (i : nat) (resp : response) : string :=
  "Error (Chunk " ++ str_of_Z (Z.of_nat i) ++ "): API returned "
  ++ str_of_Z (status_code resp) ++ " - " ++ text resp.

(** The body of the [try] of one chunk: it returns [final_output] as the
    chunk leaves it. *)
Definition try_chunk (provider : string) (setup : provider_setup)
    (parse_description : string) (i : nat) (chunk : string)
    (final_output : list pyval) : io (list pyval) :=
  resp <- send net (chunk_request provider setup parse_description chunk) ;;
  if negb (status_code resp =? 200)%Z then
    ret (final_output ++ [PStr (error_msg i resp)])%list
  else
    data <- lift (json resp) ;;
    result_text <- lift (response_text provider data) ;;
    found <- lift (str_in sentinel result_text) ;;
    if negb found then ret (final_output ++ [result_text])%list
    else ret final_output.

(** One round of the loop of step 3. *)
Definition process_chunk (provider : string) (setup : provider_setup)
    (parse_description : string) (i : nat) (chunk : string)
    (final_output : list pyval) : io (list pyval) :=
  if blank chunk then ret final_output
  else
    try_except
      (try_chunk provider setup parse_description i chunk final_output)
      any_exception
      (fun e => ret (final_output ++ [PStr ("Critical Error: " ++ str_exn e)])%list).

(** The loop over [enumerate(dom_chunks)], from index [i] on. *)
Fixpoint process_chunks (provider : string) (setup : provider_setup)
    (parse_description : string) (i : nat) (dom_chunks : list string)
    (final_output : list pyval) : io (list pyval) :=
  match dom_chunks with
  | [] => ret final_output
  | chunk :: rest =>
      out <- process_chunk provider setup parse_description i chunk final_output ;;
      process_chunks provider setup parse_description (S i) rest out
  end.

Definition empty_content : string :=
  "Error: The text content to parse is empty. Please check your scraping step.".

Definition invalid_provider : string := "Error: Invalid provider selected.".

Definition no_matching_data : string := "No matching data found in the content.".

(** Step 6. *)
Definition final_result (final_output : list pyval) : result string :=
  match final_output with
  | [] => Returns no_matching_data
  | _ :: _ => join_values nl final_output
  end.

Definition parse_with_llm (provider api_key : string)
    (dom_chunks : list string) (parse_description : string) : io string :=
  if match dom_chunks with [] => true | _ :: _ => false end
     || forallb blank dom_chunks
  then ret empty_content
  else
    match configure provider api_key with
    | None => ret invalid_provider
    | Some setup =>
        final_output <- process_chunks provider setup parse_description 0 dom_chunks [] ;;
        lift (final_result final_output)
    end.

End Driver.

End ParseLlm.

(** ** advance_scrape.py *)

Module AdvanceScrape.
Import Py PyStr.
Local Open Scope io_scope.

Definition DEFAULT_TIMEOUT : Z := 30.

Section Providers.

Variable net : network.
(** [str(e)] *)
Variable str_exn : pyexn -> string.

Definition _get (url : string) (params : list (string * string))
    (timeout : Z) : io string :=
  try_except
    (resp <- send net (mkRequest GET url params None None (Some timeout)) ;;
     _ <- lift (raise_for_status resp) ;;
     ret (text resp))
    is_request_exception
    (fun e => raise (AdvancedScraperError (str_exn e))).

Definition fetch_with_scraperapi (url api_key : string) (timeout : Z) : io string :=
  _get "https://api.scraperapi.com"
    [("api_key", api_key); ("url", url); ("render", "false")] timeout.

Definition fetch_with_scrapingbee (url api_key : string) (render_js : pyval)
    (timeout : Z) : io string :=
  let params := [("api_key", api_key); ("url", url)] in
  let params :=
    if truthy render_js then (params ++ [("render_js", "true")])%list else params in
  _get "https://app.scrapingbee.com/api/v1" params timeout.

Definition fetch_with_scrapingdog (url api_key : string) (timeout : Z) : io string :=
  _get "https://api.scrapingdog.com/scrape"
    [("api_key", api_key); ("url", url)] timeout.

Definition fetch_with_zenrows (url api_key : string) (timeout : Z) : io string :=
  _get "https://api.zenrows.com/v1/"
    [("apikey", api_key); ("url", url)] timeout.

Definition no_provider_selected : string :=
  "No provider selected. Use the basic scraper or select a provider.".

(** [options.get(name, False)] *)
Definition option_or_false (options : list (string * pyval)) (name : string) : pyval :=
  match lookup name options with
  | Some v => v
  | None => PBool false
  end.

(** [provider] and [api_key] are [None] when absent. *)
Definition generic_fetch (url : string) (provider api_key : option string)
    (timeout : Z) (options : list (string * pyval)) : io string :=
  match provider with
  | None => raise (AdvancedScraperError no_provider_selected)
  | Some provider =>
      if existsb (String.eqb (lower provider)) ["none"; "basic"]
      then raise (AdvancedScraperError no_provider_selected)
      else
        let p := lower provider in
        match api_key with
        | None | Some EmptyString =>
            raise (AdvancedScraperError ("API key is required for provider: " ++ provider))
        | Some api_key =>
            if String.eqb p "scraperapi" then
              fetch_with_scraperapi url api_key timeout
            else if String.eqb p "scrapingbee" then
              fetch_with_scrapingbee url api_key
                (option_or_false options "render_js") timeout
            else if String.eqb p "scrapingdog" then
              fetch_with_scrapingdog url api_key timeout
            else if String.eqb p "zenrows" then
              fetch_with_zenrows url api_key timeout
            else raise (AdvancedScraperError ("Unknown provider: " ++ provider))
        end
  end.

End Providers.

Definition supported : list string :=
  ["scraperapi"; "scrapingbee"; "scrapingdog"; "zenrows"].

(** The calls the guards of [generic_fetch] stop: no provider, or one
    that lowers to ["none"] or ["basic"]; no credential, or an empty
    one; a provider that lowers to none of the supported names. *)
Definition stopped (provider api_key : option string) : Prop :=
  provider = None
  \/ (exists p, provider = Some p /\ (lower p = "none" \/ lower p = "basic"))
  \/ api_key = None
  \/ api_key = Some ""
  \/ (exists p, provider = Some p /\ ~ In (lower p) supported).

End AdvanceScrape.

(** ** main.py *)

Module Main.
Import Py PyStr.
Local Open Scope io_scope.

(** A table as the code builds it: named columns and rows of cells; a
    cell the data did not fill holds [None]. *)
Record DataFrame : Type := mkFrame {
  columns : list string;
  rows : list (list pyval)
}.


(** [pd.DataFrame()] *)
Definition empty_frame : DataFrame := mkFrame [] [].

Definition pad (width : nat) (row : list pyval) : list pyval :=
  (row ++ repeat PNone (width - length row))%list.

(** [pd.DataFrame(data, columns=names)] for a list of rows: the rows
    are filled up to the longest one, whose length has to be the number
    of names. *)
Definition frame_of_rows (data : list (list string)) (names : list string)
  : result DataFrame :=
  match data with
  | [] => Returns (mkFrame names [])
  | _ :: _ =>
      let width := fold_right Nat.max 0 (map (@length string) data) in
      if (width =? length names)%nat
      then Returns (mkFrame names (map (fun r => pad width (map PStr r)) data))
      else Raises ValueError
  end.

(** [pd.DataFrame({"text": lines})] *)
Definition text_frame (lines : list string) : DataFrame :=
  mkFrame ["text"] (map (fun l => [PStr l]) lines).

(** [len(set(lens)) == 1] *)
Definition one_length (lens : list nat) : bool :=
  match lens with
  | [] => false
  | n :: rest => forallb (Nat.eqb n) rest
  end.

Definition separators : list ascii := [tab; "|"%char; ","%char; ";"%char].

(** The separators of a list that occur in the header. *)
Definition candidates (seps : list ascii) (header : string) : list ascii :=
  filter (fun sep => contains (chr sep) header) seps.

Section Reconstructor.

(** [pd.read_html] and [pd.read_csv] are pandas'; each returns its
    tables or raises. *)
Variable read_html : string -> result (list DataFrame).
Variable read_csv : string -> ascii -> result DataFrame.

(** The loop over the separators: the separators handed to
    [pd.read_csv], in order, and the table of the one that parsed. *)
Fixpoint try_separators (seps : list ascii) (header : string)
    (lines : list string) : list ascii * option DataFrame :=
  match seps with
  | [] => ([], None)
  | sep :: rest =>
      if contains (chr sep) header then
        match read_csv (join nl lines) sep with
        | Returns df => ([sep], Some df)
        | Raises _ =>
            let (tried, found) := try_separators rest header lines in
            (sep :: tried, found)
        end
      else try_separators rest header lines
  end.

(** Strategies 3 and 4. *)
Definition whitespace_or_text (lines : list string) : result DataFrame :=
  let parts := map split lines in
  let lens := map (@length string) parts in
  if (2 <=? length parts)%nat && one_length lens && (1 <? hd 0 lens)%nat
  then frame_of_rows (tl parts) (hd [] parts)
  else Returns (text_frame lines).

Definition try_to_dataframe (parsed_text : string) : result DataFrame :=
  match read_html parsed_text with
  | Returns (df :: _) => Returns df
  | _ =>
      let lines := stripped_lines parsed_text in
      match lines with
      | [] => Returns empty_frame
      | header :: _ =>
          match snd (try_separators separators header lines) with
          | Some df => Returns df
          | None => whitespace_or_text lines
          end
      end
  end.

(** [pd.read_html] found no table: it raised or returned none. *)
Definition no_table (parsed_text : string) : Prop :=
  match read_html parsed_text with
  | Returns (_ :: _) => False
  | _ => True
  end.

(** The parse of the lines with a separator raises. *)
Definition raises (lines : list string) (sep : ascii) : Prop :=
  exists e, read_csv (join nl lines) sep = Raises e.

End Reconstructor.

(** The scrape button of [render_basic_scraper], up to the test on the
    fetched text: what goes to [st.error], or the page that goes on to
    the normaliser. *)
Inductive scrape_click : Type :=
| ShowError (message : string)
| Scraped (html : string).

Definition is_error_text (result : string) : bool := startswith result "ERROR:".

Section BasicScraper.

Variable net : network.
Variable str_exn : pyexn -> string.

Definition click_scrape (url : string) : io scrape_click :=
  if is_empty url then ret (ShowError "Please enter a URL.")
  else
    result <- Scrape.scrape_website net str_exn url 20 ;;
    if is_error_text result then ret (ShowError result)
    else ret (Scraped result).

End BasicScraper.

End Main.

(** ** Readings of the libraries on small inputs

    The theorems below hold for every network, parser and table
    reader.  To run the code on examples this module fixes some: a
    network with one answer, a reading of [html.parser] and a reading of
    [pd.read_csv], each on the fragment its comment names. *)

Module Models.
Import Py PyStr.

(** The network that gives every request the same answer. *)
Definition always (answer : result response) : network := fun _ _ => answer.

(** A [200] response whose body is the JSON value [data]. *)
Definition ok_json (body : string) (data : pyval) : response :=
  mkResponse 200 body (Returns data).

(** The envelope of a chat completion whose message content is [content]. *)
Definition chat_envelope (content : pyval) : pyval :=
  PDict [("choices", PList [PDict [("message", PDict [("content", content)])]])].

(** The network that answers its first request with a field and every
    later one with the sentinel. *)
Definition field_then_sentinel : network :=
  fun log _ =>
    match log with
    | [] => Returns (ok_json "" (chat_envelope (PStr "FieldX: foo")))
    | _ :: _ => Returns (ok_json "" (chat_envelope (PStr "NO_DATA")))
    end.

(** The network that answers its first request with a field and every
    later one with text around the sentinel. *)
Definition field_then_noise : network :=
  fun log _ =>
    match log with
    | [] => Returns (ok_json "" (chat_envelope (PStr "FieldX: foo")))
    | _ :: _ => Returns (ok_json "" (chat_envelope (PStr "n/a NO_DATA here")))
    end.

(** A rendering of exceptions for the examples: the text the exception
    carries, or the name of its class when it carries none. *)
Definition carried_text (e : pyexn) : string :=
  match e with
  | RequestException detail | OtherException detail => detail
  | AdvancedScraperError msg => msg
  | HTTPError status => str_of_Z status
  | KeyError _ => "KeyError"
  | IndexError => "IndexError"
  | TypeError => "TypeError"
  | ValueError => "ValueError"
  end.

(** *** html.parser on tags without attributes and three references

    Character data, start tags [<name>], end tags [</name>] and the
    references [&lt;], [&gt;] and [&amp;].  A less-than sign opens a
    tag when a letter follows it, or a slash and a letter; any other
    one is character data.  An end tag closes the innermost open
    element; the end of the input closes all of them.  Attributes,
    comments, declarations and the raw text of script bodies are
    outside the fragment. *)

Definition is_letter (c : ascii) : bool :=
  let n := nat_of_ascii c in
  (((65 <=? n) && (n <=? 90)) || ((97 <=? n) && (n <=? 122)))%nat.

(** What follows a less-than sign makes it a tag. *)
Definition opens_tag (r : string) : bool :=
  match r with
  | String c rest =>
      is_letter c
      || (Ascii.eqb c "/"%char
          && match rest with
             | String d _ => is_letter d
             | EmptyString => false
             end)
  | EmptyString => false
  end.

Inductive scan_mode : Type :=
| InText
| InTag (name : string).

(** An open element: its name and the nodes read before it at its level. *)
Definition open_element : Type := (string * list Soup.node)%type.

Definition text_nodes (cur : string) : list Soup.node :=
  if is_empty cur then [] else [Soup.Text cur].

Definition close_innermost (kids : list Soup.node) (stack : list open_element)
  : list Soup.node * list open_element :=
  match stack with
  | [] => (kids, [])
  | (tag, before) :: rest => ((before ++ [Soup.Element tag kids])%list, rest)
  end.

Fixpoint close_all (kids : list Soup.node) (stack : list open_element)
  : list Soup.node :=
  match stack with
  | [] => kids
  | (tag, before) :: rest => close_all (before ++ [Soup.Element tag kids])%list rest
  end.

Fixpoint scan_html (mode : scan_mode) (skip : nat) (cur : string)
    (kids : list Soup.node) (stack : list open_element) (s : string)
  : list Soup.node :=
  match s with
  | EmptyString => close_all (kids ++ text_nodes cur)%list stack
  | String c r =>
      match skip with
      | S k => scan_html mode k cur kids stack r
      | O =>
          match mode with
          | InText =>
              if Ascii.eqb c "<"%char && opens_tag r then
                scan_html (InTag EmptyString) 0 EmptyString
                  (kids ++ text_nodes cur)%list stack r
              else if String.prefix "&lt;" s then
                scan_html InText 3 (cur ++ "<") kids stack r
              else if String.prefix "&gt;" s then
                scan_html InText 3 (cur ++ ">") kids stack r
              else if String.prefix "&amp;" s then
                scan_html InText 4 (cur ++ "&") kids stack r
              else scan_html InText 0 (cur ++ chr c) kids stack r
          | InTag name =>
              if Ascii.eqb c ">"%char then
                match name with
                | String "/"%char _ =>
                    let (kids', stack') := close_innermost kids stack in
                    scan_html InText 0 EmptyString kids' stack' r
                | _ =>
                    scan_html InText 0 EmptyString [] ((lower name, kids) :: stack) r
                end
              else scan_html (InTag (name ++ chr c)) 0 EmptyString kids stack r
          end
      end
  end.

Definition html_fragment_parser : Soup.parser :=
  scan_html InText 0 EmptyString [] [].

(** *** pd.read_html and pd.read_csv on plain text

    [no_tables] is [pd.read_html] on text without a table element: it
    raises.  [strict_csv] is [pd.read_csv] on unquoted text whose first
    record is no longer than the header: the fields of a line are what
    lies between separators, a short record is filled up, and a record
    with more fields than the header is the tokenizing error.  It says
    which parses return and which columns and rows they have; the cells
    stay the text of their fields, where pandas goes on to type each
    column (a column of digits becomes integers). *)

Definition no_tables (parsed_text : string) : result (list Main.DataFrame) :=
  Raises ValueError.

Fixpoint fields (sep : ascii) (cur s : string) : list string :=
  match s with
  | EmptyString => [cur]
  | String c r =>
      if Ascii.eqb c sep then cur :: fields sep EmptyString r
      else fields sep (cur ++ chr c) r
  end.

Definition strict_csv (csv_text : string) (sep : ascii) : result Main.DataFrame :=
  match map (fields sep EmptyString) (splitlines csv_text) with
  | [] => Raises ValueError
  | header :: records =>
      if forallb (fun r => (length r <=? length header)%nat) records
      then Returns (Main.mkFrame header
                      (map (fun r => Main.pad (length header) (map PStr r)) records))
      else Raises ValueError
  end.

(** Three lines that hold tabs and commas; the last has one tab more
    than the others. *)
Definition tabs_and_commas : string :=
  "a" ++ chr tab ++ "b,c" ++ nl
  ++ "1" ++ chr tab ++ "2,3" ++ nl
  ++ "4" ++ chr tab ++ "5" ++ chr tab ++ "6,7".


End Models.

(** ** The rest of scrape.py: the body of a page *)

Module Body.
Import Py PyStr.

(** [soup.find(name)] below one node: the first element with the name,
    in document order. *)
Fixpoint find_first (name : string) (n : Soup.node) : option Soup.node :=
  match n with
  | Soup.Text _ => None
  | Soup.Element tag children =>
      if String.eqb tag name then Some n
      else
        (fix among (nodes : list Soup.node) : option Soup.node :=
           match nodes with
           | [] => None
           | child :: rest =>
               match find_first name child with
               | Some found => Some found
               | None => among rest
               end
           end) children
  end.

(** [soup.find(name)] in a document. *)
Fixpoint find_in (name : string) (doc : list Soup.node) : option Soup.node :=
  match doc with
  | [] => None
  | n :: rest =>
      match find_first name n with
      | Some found => Some found
      | None => find_in name rest
      end
  end.

(** The nodes of a tree in document order: the node, then what its
    children hold, child by child. *)
Fixpoint nodes (n : Soup.node) : list Soup.node :=
  match n with
  | Soup.Text _ => [n]
  | Soup.Element _ children => n :: flat_map nodes children
  end.

(** The node is an element with the name. *)
Definition named (name : string) (n : Soup.node) : bool :=
  match n with
  | Soup.Text _ => false
  | Soup.Element tag _ => String.eqb tag name
  end.

(** An element with one of the names stands somewhere in the tree. *)
Fixpoint has_tag (names : list string) (n : Soup.node) : bool :=
  match n with
  | Soup.Text _ => false
  | Soup.Element tag children =>
      Soup.name_in names tag || existsb (has_tag names) children
  end.

Section ExtractBody.

Variable html_parser : Soup.parser.
(** [str(tag)]: the markup of an element, as the library writes it. *)
Variable render : Soup.node -> string.

(** [soup.body] is the first [body] element or [None]; an element is
    always true. *)
Definition extract_body_content (html_content : string) : string :=
  match find_in "body" (html_parser html_content) with
  | Some body_content => render body_content
  | None => EmptyString
  end.

End ExtractBody.

End Body.

(** ** The rest of advance_scrape.py: the key from the environment *)

Module Env.
Import Py PyStr.

(** [os.environ]: the value of a variable, when it is set. *)
Definition environ : Type := string -> option string.

(** [os.getenv(name, default)] *)
Definition getenv (env : environ) (name default : string) : string :=
  match env name with
  | Some value => value
  | None => default
  end.

Definition env_map : list (string * string) :=
  [("scraperapi", "SCRAPERAPI_KEY");
   ("scrapingbee", "SCRAPINGBEE_KEY");
   ("scrapingdog", "SCRAPINGDOG_KEY");
   ("zenrows", "ZENROWS_KEY")].

(** [d.get(key, default)] *)
Definition dict_get (d : list (string * string)) (key default : string) : string :=
  match lookup key d with
  | Some v => v
  | None => default
  end.

Definition get_api_key_from_env (env : environ) (provider : string) : string :=
  getenv env (dict_get env_map (lower provider) "") "".

End Env.

(** ** The rest of main.py: the button of the advanced page *)

Module Advanced.
Import Py PyStr.
Local Open Scope io_scope.

(** The options of the provider select box. *)
Inductive provider_option : Type :=
| ScraperAPI
| ZenRows
| ScrapingBee
| ScrapingDog.

(** [provider_map.get(provider)] on an option of the box. *)
Definition provider_map (provider : provider_option) : string :=
  match provider with
  | ScraperAPI => "scraperapi"
  | ZenRows => "zenrows"
  | ScrapingBee => "scrapingbee"
  | ScrapingDog => "scrapingdog"
  end.

(** What the click leaves on the page: the text of [st.error], or the
    cleaned content stored in the session before [st.success]. *)
Inductive click_event : Type :=
| Failed (message : string)
| Completed (cleaned_content : string).

Section Click.

Variable net : network.
Variable str_exn : pyexn -> string.
Variable env : Env.environ.
Variable html_parser : Soup.parser.
Variable render : Soup.node -> string.

(** [api_key.strip() or get_api_key_from_env(provider_id)] *)
Definition resolve_key (api_key provider_id : string) : string :=
  if is_empty (strip api_key) then Env.get_api_key_from_env env provider_id
  else strip api_key.

Definition click_advanced (url : string) (provider : provider_option)
    (api_key : string) : io click_event :=
  if is_empty url then ret (Failed "Please enter a URL.")
  else
    let provider_id := provider_map provider in
    let provider_key := resolve_key api_key provider_id in
    if is_empty provider_key then ret (Failed "Missing API key for selected provider.")
    else
      try_except
        (html <- AdvanceScrape.generic_fetch net str_exn url (Some provider_id)
                   (Some provider_key) AdvanceScrape.DEFAULT_TIMEOUT [] ;;
         let body_content := Body.extract_body_content html_parser render html in
         let cleaned_content := Scrape.clean_body_content html_parser body_content in
         ret (Completed cleaned_content))
        any_exception
        (fun e =>
           match e with
           | AdvancedScraperError _ =>
               ret (Failed ("Advanced scrape failed: " ++ str_exn e))
           | _ => ret (Failed ("Unexpected error: " ++ str_exn e))
           end).

End Click.

End Advanced.

(** ** Helpers of the statements *)

Module Enumerate.

(** [enumerate(items, start)] *)
Fixpoint enumerate_from {A : Type} (start : nat) (items : list A) : list (nat * A) :=
  match items with
  | [] => []
  | x :: rest => (start, x) :: enumerate_from (S start) rest
  end.

End Enumerate.

Module Requests.
Import Py.

(** A GET with the given timeout whose query carries the page address
    and the key, under one of the two names the providers use. *)
Definition carries (rq : request) (url key : string) (timeout : Z) : Prop :=
  req_method rq = GET
  /\ req_timeout rq = Some timeout
  /\ lookup "url" (req_params rq) = Some url
  /\ (lookup "api_key" (req_params rq) = Some key
      \/ lookup "apikey" (req_params rq) = Some key).

End Requests.

(** * Properties *)

(** ** Strings *)

Module PyStrFacts.
Import PyStr.

Lemma append_empty_r (s : string) : s ++ "" = s.
Proof. induction s as [|c s IH]; simpl; [reflexivity | now rewrite IH]. Qed.

Lemma append_assoc (a b c : string) : (a ++ b) ++ c = a ++ (b ++ c).
Proof. induction a as [|x a IH]; simpl; [reflexivity | now rewrite IH]. Qed.

Lemma length_append (a b : string) :
  String.length (a ++ b) = String.length a + String.length b.
Proof. induction a as [|x a IH]; simpl; [reflexivity | now rewrite IH]. Qed.

Lemma take_length (n : nat) (s : string) :
  String.length (take n s) = Nat.min n (String.length s).
Proof.
  revert s; induction n as [|n IH]; intros [|c s]; simpl; auto.
Qed.

Lemma drop_length (n : nat) (s : string) :
  String.length (drop n s) = String.length s - n.
Proof.
  revert s; induction n as [|n IH]; intros [|c s]; simpl; auto.
Qed.

Lemma take_all (n : nat) (s : string) :
  String.length s <= n -> take n s = s.
Proof.
  revert s; induction n as [|n IH]; intros [|c s] H; simpl in *;
    try reflexivity; try lia.
  now rewrite IH by lia.
Qed.

Lemma take_add (a b : nat) (s : string) :
  take (a + b) s = take a s ++ take b (drop a s).
Proof.
  revert s; induction a as [|a IH]; intros s; simpl.
  - reflexivity.
  - destruct s as [|c s]; simpl.
    + now destruct b.
    + now rewrite IH.
Qed.

Lemma take_min (n : nat) (s : string) :
  take (Nat.min n (String.length s)) s = take n s.
Proof.
  revert s; induction n as [|n IH]; intros [|c s]; simpl; auto.
  now rewrite IH.
Qed.

(** Joining without a separator is plain concatenation. *)
Lemma join_empty_cons (x : string) (xs : list string) :
  join "" (x :: xs) = x ++ join "" xs.
Proof.
  unfold join; destruct xs; simpl; [now rewrite append_empty_r | reflexivity].
Qed.

Lemma join_empty_app (xs ys : list string) :
  join "" (xs ++ ys) = join "" xs ++ join "" ys.
Proof.
  induction xs as [|x xs IH].
  - reflexivity.
  - rewrite <- app_comm_cons, !join_empty_cons, IH. now rewrite append_assoc.
Qed.

(** A slice between two bounds inside the string, in terms of [take]
    and [drop]. *)
Lemma slice_inside (s : string) (i n : nat) :
  i <= String.length s ->
  slice s (Z.of_nat i) (Z.of_nat i + Z.of_nat n) = take n (drop i s).
Proof.
  intros Hi. unfold slice, slice_bound, len.
  destruct (Z.ltb_spec (Z.of_nat i) 0); [lia|].
  destruct (Z.ltb_spec (Z.of_nat i + Z.of_nat n) 0); [lia|].
  rewrite (Z.min_l (Z.of_nat i)) by lia.
  rewrite Nat2Z.id.
  rewrite <- (take_min n (drop i s)), drop_length.
  f_equal. lia.
Qed.

(** [String.prefix p s] says that [s] starts with [p]. *)
Lemma prefix_iff (p s : string) :
  String.prefix p s = true <-> exists rest, s = p ++ rest.
Proof.
  revert s; induction p as [|c p IH]; intros s.
  - destruct s; simpl; split; eauto.
  - destruct s as [|d s]; simpl.
    + split; [discriminate | intros (rest & H); discriminate].
    + destruct (ascii_dec c d) as [->|Hcd].
      * rewrite IH. split; intros (rest & H); exists rest;
          [now rewrite H | now injection H].
      * split; [discriminate | intros (rest & H); congruence].
Qed.

(** [contains needle hay] says that [needle] occurs somewhere in [hay]. *)
Lemma contains_iff (needle hay : string) :
  contains needle hay = true
  <-> exists before after, hay = before ++ needle ++ after.
Proof.
  induction hay as [|c hay IH].
  - change (contains needle "") with (String.prefix needle "" || false).
    rewrite orb_false_r, prefix_iff. split.
    + intros (rest & H). now exists "", rest.
    + intros (before & after & H). destruct before; [eauto | discriminate].
  - change (contains needle (String c hay))
      with (String.prefix needle (String c hay) || contains needle hay).
    rewrite orb_true_iff, prefix_iff, IH. split.
    + intros [(rest & H) | (before & after & H)].
      * now exists "", rest.
      * exists (String c before), after. simpl. now rewrite H.
    + intros (before & after & H). destruct before as [|d before].
      * left. now exists after.
      * right. exists before, after. simpl in H. now injection H.
Qed.

End PyStrFacts.

(** ** The chunker *)

Module RangeFacts.
Import Py PyRange.

Lemma count_done (i stop step : Z) :
  (0 < step)%Z -> (stop <= i)%Z -> count i stop step = 0.
Proof.
  intros Hs Hi. unfold count.
  assert ((stop - i + step - 1) / step <= 0)%Z; [|lia].
  assert ((stop - i + step - 1) / step < 1)%Z; [|lia].
  apply Z.div_lt_upper_bound; lia.
Qed.

Lemma count_step (i stop step : Z) :
  (0 < step)%Z -> (i < stop)%Z ->
  count i stop step = S (count (i + step) stop step).
Proof.
  intros Hs Hi. unfold count.
  replace (stop - i + step - 1)%Z with ((stop - (i + step) + step - 1) + 1 * step)%Z by lia.
  rewrite Z.div_add by lia.
  assert (0 <= (stop - (i + step) + step - 1) / step)%Z
    by (apply Z.div_pos; lia).
  lia.
Qed.

Lemma range_scan_positive (fuel : nat) (i stop step : Z) :
  (0 < step)%Z -> count i stop step <= fuel ->
  range_scan fuel i stop step
  = map (fun k => (i + Z.of_nat k * step)%Z) (seq 0 (count i stop step)).
Proof.
  intros Hs. revert i.
  induction fuel as [|fuel IH]; intros i Hfuel; simpl.
  - now replace (count i stop step) with 0 by lia.
  - destruct (Z.ltb_spec 0 step); [|lia].
    destruct (Z.ltb_spec i stop) as [Hi|Hi].
    + rewrite (count_step i stop step) in * by lia.
      rewrite IH by lia. simpl. f_equal; [f_equal; lia|].
      rewrite <- seq_shift, map_map.
      apply map_ext. intros k. lia.
    + now rewrite count_done by lia.
Qed.

Lemma count_le_distance (stop step : Z) :
  (0 < step)%Z -> count 0 stop step <= Z.to_nat (Z.abs (stop - 0)).
Proof.
  intros Hs. unfold count.
  destruct (Z.le_gt_cases stop 0) as [H|H].
  - assert ((stop - 0 + step - 1) / step < 1)%Z by (apply Z.div_lt_upper_bound; lia).
    lia.
  - assert ((stop - 0 + step - 1) / step < stop + 1)%Z
      by (apply Z.div_lt_upper_bound; nia).
    lia.
Qed.

Lemma range_positive (stop step : Z) :
  (0 < step)%Z ->
  range 0 stop step
  = Returns (map (fun k => (Z.of_nat k * step)%Z) (seq 0 (count 0 stop step))).
Proof.
  intros Hs. unfold range.
  destruct (Z.eqb_spec step 0); [lia|].
  rewrite range_scan_positive by (auto using count_le_distance).
  reflexivity.
Qed.

(** An index below the count starts inside the range. *)
Lemma count_inside (k : nat) (stop step : Z) :
  (0 < step)%Z -> k < count 0 stop step -> (Z.of_nat k * step < stop)%Z.
Proof.
  intros Hs Hk. unfold count in Hk.
  assert (Z.of_nat k < (stop - 0 + step - 1) / step)%Z by lia.
  assert (Z.of_nat k + 1 <= (stop + step - 1) / step)%Z
    by (replace (stop + step - 1)%Z with (stop - 0 + step - 1)%Z by lia; lia).
  assert (step * ((stop + step - 1) / step) <= stop + step - 1)%Z
    by (apply Z.mul_div_le; lia).
  nia.
Qed.

Lemma count_covers (stop step : Z) :
  (0 < step)%Z -> (0 <= stop)%Z -> (stop <= Z.of_nat (count 0 stop step) * step)%Z.
Proof.
  intros Hs Hstop. unfold count.
  rewrite Z2Nat.id by (apply Z.div_pos; lia).
  pose proof (Z.mod_pos_bound (stop - 0 + step - 1) step Hs).
  pose proof (Z.div_mod (stop - 0 + step - 1) step ltac:(lia)).
  nia.
Qed.

End RangeFacts.

(** ** Lines *)

Module LineFacts.
Import PyStr PyStrFacts.

Lemma all_chars_append (p : ascii -> bool) (a b : string) :
  all_chars p (a ++ b) = all_chars p a && all_chars p b.
Proof.
  induction a as [|c a IH]; simpl; [reflexivity|].
  now rewrite IH, andb_assoc.
Qed.

Lemma all_chars_lstrip (p : ascii -> bool) (s : string) :
  all_chars p s = true -> all_chars p (lstrip s) = true.
Proof.
  induction s as [|c s IH]; simpl; [auto|].
  intros H. apply andb_true_iff in H as [Hc Hs].
  destruct (isspace c); [auto | simpl; now rewrite Hc, Hs].
Qed.

Lemma all_chars_rstrip (p : ascii -> bool) (s : string) :
  all_chars p s = true -> all_chars p (rstrip s) = true.
Proof.
  induction s as [|c s IH]; simpl; [auto|].
  intros H. apply andb_true_iff in H as [Hc Hs].
  specialize (IH Hs).
  destruct (rstrip s) as [|d r].
  - destruct (isspace c); simpl; [reflexivity | now rewrite Hc].
  - simpl in *. now rewrite Hc, IH.
Qed.

Lemma all_chars_strip (p : ascii -> bool) (s : string) :
  all_chars p s = true -> all_chars p (strip s) = true.
Proof. intros H. now apply all_chars_rstrip, all_chars_lstrip. Qed.

(** A string of whitespace strips to nothing. *)
Lemma strip_whitespace (s : string) :
  all_chars isspace s = true -> strip s = "".
Proof.
  unfold strip. induction s as [|c s IH]; simpl; [reflexivity|].
  intros H. apply andb_true_iff in H as [Hc Hs]. rewrite Hc. auto.
Qed.

Lemma rstrip_keeps_head (c : ascii) (r : string) :
  isspace c = false -> rstrip (String c r) = String c (rstrip r).
Proof.
  intros Hc. simpl. destruct (rstrip r); [now rewrite Hc | reflexivity].
Qed.

Lemma rstrip_rstrip (s : string) : rstrip (rstrip s) = rstrip s.
Proof.
  induction s as [|c s IH]; simpl; [reflexivity|].
  destruct (rstrip s) as [|d r] eqn:E.
  - destruct (isspace c) eqn:Hc; simpl; [reflexivity | now rewrite Hc].
  - change (rstrip (String c (String d r)) = String c (String d r)).
    simpl. simpl in IH. rewrite IH. reflexivity.
Qed.

(** What [lstrip] leaves is empty or starts with a character that is
    not whitespace. *)
Lemma lstrip_head (s : string) :
  lstrip s = "" \/ exists c r, lstrip s = String c r /\ isspace c = false.
Proof.
  induction s as [|c s IH]; simpl; [now left|].
  destruct (isspace c) eqn:Hc; [assumption | right; eauto].
Qed.

Lemma strip_strip (s : string) : strip (strip s) = strip s.
Proof.
  unfold strip.
  destruct (lstrip_head s) as [E | (c & r & E & Hc)]; rewrite E.
  - reflexivity.
  - rewrite (rstrip_keeps_head c r Hc). simpl lstrip. rewrite Hc.
    rewrite (rstrip_keeps_head c _ Hc). now rewrite rstrip_rstrip.
Qed.

(** The lines of a scan hold the characters of the line being read and
    those of the text that are not boundaries. *)
Lemma splitlines_scan_chars (q : ascii -> bool) (s : string) :
  forall (after_cr : bool) (cur : string),
    all_chars q cur = true ->
    all_chars (fun c => is_linebreak c || q c) s = true ->
    Forall (fun line => all_chars q line = true) (splitlines_scan after_cr cur s).
Proof.
  induction s as [|c s IH]; intros after_cr cur Hcur Hs; simpl.
  - unfold flush. destruct (is_empty cur); auto.
  - simpl in Hs. apply andb_true_iff in Hs as [Hc Hs].
    destruct (after_cr && Ascii.eqb c lf); [now apply IH|].
    destruct (is_linebreak c) eqn:Hb.
    + constructor; [assumption | now apply IH].
    + apply IH; [|assumption].
      rewrite all_chars_append. simpl in *. now rewrite Hcur, Hc.
Qed.


Lemma all_chars_true (q : ascii -> bool) (s : string) :
  (forall c, q c = true) -> all_chars q s = true.
Proof.
  intros Hq. induction s as [|c s IH]; simpl; [auto | now rewrite Hq, IH].
Qed.

Lemma splitlines_no_break (s : string) :
  Forall (fun line => all_chars no_break line = true) (splitlines s).
Proof.
  apply splitlines_scan_chars; [reflexivity|].
  apply all_chars_true. intros c. unfold no_break. now destruct (is_linebreak c).
Qed.


Lemma stripped_lines_clean (s : string) : Forall clean_line (stripped_lines s).
Proof.
  unfold stripped_lines. apply Forall_map.
  pose proof (splitlines_no_break s) as H.
  induction H as [|line lines Hline _ IH]; simpl; [constructor|].
  destruct (is_empty (strip line)) eqn:E; simpl; [assumption|].
  constructor; [|assumption].
  repeat split; [assumption | apply strip_strip | now apply all_chars_strip].
Qed.

(** Reading one line that has no boundary, then a line feed. *)
Lemma splitlines_scan_line (line : string) :
  forall cur rest,
    all_chars no_break line = true ->
    splitlines_scan false cur (line ++ rest)
    = splitlines_scan false (cur ++ line) rest.
Proof.
  induction line as [|c line IH]; intros cur rest H; simpl.
  - now rewrite append_empty_r.
  - simpl in H. apply andb_true_iff in H as [Hc Hline].
    unfold no_break in Hc. apply negb_true_iff in Hc. rewrite Hc.
    rewrite IH by assumption. rewrite append_assoc. reflexivity.
Qed.

Lemma splitlines_join (lines : list string) :
  Forall clean_line lines -> splitlines (join nl lines) = lines.
Proof.
  unfold splitlines.
  induction 1 as [|line lines (Hne & _ & Hnb) Hrest IH]; [reflexivity|].
  unfold join in *. simpl String.concat.
  destruct lines as [|next lines].
  - rewrite <- (append_empty_r line) at 1.
    rewrite splitlines_scan_line by assumption. simpl.
    unfold flush. now rewrite Hne.
  - rewrite splitlines_scan_line by assumption.
    change (nl ++ ?x) with (String lf x). simpl splitlines_scan at 1.
    simpl append at 1. f_equal. exact IH.
Qed.

Lemma stripped_lines_join (lines : list string) :
  Forall clean_line lines -> stripped_lines (join nl lines) = lines.
Proof.
  intros H. unfold stripped_lines. rewrite (splitlines_join lines H).
  induction H as [|line lines (Hne & Hstrip & _) _ IH]; [reflexivity|].
  simpl. rewrite Hstrip, Hne. simpl. now rewrite Hstrip, IH.
Qed.

(** The line step of the normaliser does nothing to its own output. *)
Lemma clean_lines_idempotent (s : string) :
  Scrape.clean_lines (Scrape.clean_lines s) = Scrape.clean_lines s.
Proof.
  unfold Scrape.clean_lines.
  now rewrite (stripped_lines_join _ (stripped_lines_clean s)).
Qed.


End LineFacts.

Module ScrapeFacts.
Import Py PyStr PyRange PyStrFacts RangeFacts Scrape.

(** The chunks of a positive bound, by index. *)
Lemma split_dom_content_positive (D : string) (L : Z) :
  (0 < L)%Z ->
  split_dom_content D L
  = Returns (map (fun k => take (Z.to_nat L) (drop (k * Z.to_nat L) D))
               (seq 0 (count 0 (len D) L))).
Proof.
  intros HL. unfold split_dom_content.
  rewrite range_positive by assumption. simpl. f_equal.
  rewrite map_map. apply map_ext_in. intros k Hk.
  apply in_seq in Hk.
  assert (Hin : (Z.of_nat k * L < len D)%Z) by (apply count_inside; lia).
  unfold len in Hin.
  rewrite <- (slice_inside D (k * Z.to_nat L) (Z.to_nat L)) by nia.
  f_equal; nia.
Qed.

Lemma join_strides (l c : nat) (s : string) :
  join "" (map (fun k => take l (drop (k * l) s)) (seq 0 c)) = take (c * l) s.
Proof.
  induction c as [|c IH].
  - reflexivity.
  - rewrite seq_S, map_app, join_empty_app, IH. simpl map.
    rewrite join_empty_cons. unfold join at 1. simpl String.concat.
    rewrite append_empty_r.
    replace (S c * l) with (c * l + l) by lia.
    now rewrite take_add.
Qed.

(** C1. For every document [D] and every bound [L > 0],
    [split_dom_content D L] returns chunks whose concatenation in order
    is [D]; there are [ceil(len D / L)] of them; chunk [k] is the slice
    [D[k*L : (k+1)*L]]; every chunk but the last has length exactly [L]
    (the last one is not empty and no longer than [L]); and the empty
    document has no chunk. *)
Theorem split_dom_content_exhaustive (D : string) (L : Z) :
  (0 < L)%Z ->
  exists chunks : list string,
    split_dom_content D L = Returns chunks
    /\ join "" chunks = D
    /\ Z.of_nat (length chunks) = ((len D + L - 1) / L)%Z
    /\ (forall k, k < length chunks ->
          nth k chunks "" = slice D (Z.of_nat k * L) ((Z.of_nat k + 1) * L))
    /\ (forall k, S k < length chunks -> len (nth k chunks "") = L)
    /\ (forall k, k < length chunks ->
          (0 < len (nth k chunks "") <= L)%Z)
    /\ (D = "" -> chunks = []).
Proof.
  intros HL.
  set (l := Z.to_nat L). set (c := count 0 (len D) L).
  set (chunk := fun k => take l (drop (k * l) D)).
  assert (Hlen : length (map chunk (seq 0 c)) = c)
    by now rewrite length_map, length_seq.
  assert (Hnth : forall k, k < c -> nth k (map chunk (seq 0 c)) "" = chunk k).
  { intros k Hk.
    rewrite (nth_indep _ "" (chunk 0)) by lia.
    rewrite (map_nth chunk (seq 0 c) 0 k), seq_nth by lia. reflexivity. }
  assert (Hinside : forall k, k < c -> (Z.of_nat k * L < len D)%Z)
    by (intros; apply count_inside; assumption).
  assert (Hsize : forall k, len (chunk k) = Z.of_nat (Nat.min l (String.length D - k * l))).
  { intros k. unfold len, chunk. now rewrite take_length, drop_length. }
  exists (map chunk (seq 0 c)).
  split; [now apply split_dom_content_positive|].
  split.
  { unfold chunk. rewrite join_strides. apply take_all.
    pose proof (count_covers (len D) L HL ltac:(unfold len; lia)) as Hc.
    fold c in Hc. unfold len in Hc. nia. }
  split.
  { rewrite Hlen. unfold c, count.
    rewrite Z2Nat.id by (apply Z.div_pos; unfold len; lia).
    f_equal. lia. }
  split.
  { intros k Hk. rewrite Hlen in Hk. rewrite Hnth by assumption.
    specialize (Hinside k Hk). unfold len in Hinside. unfold chunk.
    replace (Z.of_nat k * L)%Z with (Z.of_nat (k * l)) by nia.
    replace ((Z.of_nat k + 1) * L)%Z with (Z.of_nat (k * l) + Z.of_nat l)%Z by nia.
    symmetry. apply slice_inside. nia. }
  split.
  { intros k Hk. rewrite Hlen in Hk. rewrite Hnth by lia.
    rewrite Hsize.
    pose proof (Hinside (S k) Hk) as Hin. unfold len in Hin. nia. }
  split.
  { intros k Hk. rewrite Hlen in Hk. rewrite Hnth by lia.
    rewrite Hsize.
    pose proof (Hinside k Hk) as Hin. unfold len in Hin. nia. }
  intros ->. subst c.
  now rewrite count_done by (unfold len; simpl; lia).
Qed.

(** C1 at the document ["abcdefg"] and the bound 3. *)
Lemma split_dom_content_exhaustive_witness :
  (0 < 3)%Z
  /\ exists chunks : list string,
       split_dom_content "abcdefg" 3 = Returns chunks
       /\ join "" chunks = "abcdefg"
       /\ Z.of_nat (length chunks) = ((len "abcdefg" + 3 - 1) / 3)%Z
       /\ (forall k, k < length chunks ->
             nth k chunks "" = slice "abcdefg" (Z.of_nat k * 3) ((Z.of_nat k + 1) * 3))
       /\ (forall k, S k < length chunks -> len (nth k chunks "") = 3%Z)
       /\ (forall k, k < length chunks ->
             (0 < len (nth k chunks "") <= 3)%Z)
       /\ ("abcdefg" = "" -> chunks = []).
Proof.
  split; [lia | apply (split_dom_content_exhaustive "abcdefg" 3); lia].
Defined.

(** C8, as the code has it.  For every parser and every input whose
    cleaned text the parser reads as plain text (parsing it and taking
    its text gives it back), cleaning the cleaned text changes nothing:
    [clean_body_content (clean_body_content x) = clean_body_content x]. *)
Theorem clean_body_content_idempotent_on_plain_text
    (html_parser : Soup.parser) (x : string) :
  text_without_scripts html_parser (clean_body_content html_parser x)
  = clean_body_content html_parser x ->
  clean_body_content html_parser (clean_body_content html_parser x)
  = clean_body_content html_parser x.
Proof.
  intros Hplain. unfold clean_body_content at 1. simpl.
  rewrite Hplain. unfold clean_body_content.
  apply LineFacts.clean_lines_idempotent.
Qed.

(** C8 as the code has it, at a paragraph whose text is plain. *)
Lemma clean_body_content_idempotent_on_plain_text_witness :
  text_without_scripts Models.html_fragment_parser
    (clean_body_content Models.html_fragment_parser "<p> hi <script>x</script></p> there")
  = clean_body_content Models.html_fragment_parser "<p> hi <script>x</script></p> there"
  /\ clean_body_content Models.html_fragment_parser
       (clean_body_content Models.html_fragment_parser "<p> hi <script>x</script></p> there")
     = clean_body_content Models.html_fragment_parser "<p> hi <script>x</script></p> there".
Proof.
  split;
    [ reflexivity
    | apply (clean_body_content_idempotent_on_plain_text
               Models.html_fragment_parser "<p> hi <script>x</script></p> there");
      reflexivity ].
Defined.

(** C8 as stated fails: a body that spells a tag with character
    references cleans to text that shows the tag, and a second pass
    reads that text as markup and drops the tag. *)
Lemma clean_body_content_not_idempotent :
  clean_body_content Models.html_fragment_parser "&lt;b&gt;hi&lt;/b&gt;" = "<b>hi</b>"
  /\ clean_body_content Models.html_fragment_parser "<b>hi</b>" = "hi"
  /\ clean_body_content Models.html_fragment_parser
       (clean_body_content Models.html_fragment_parser "&lt;b&gt;hi&lt;/b&gt;")
     <> clean_body_content Models.html_fragment_parser "&lt;b&gt;hi&lt;/b&gt;".
Proof.
  repeat split; try reflexivity.
  vm_compute. discriminate.
Qed.

End ScrapeFacts.

(** ** The extraction driver *)

Module ParseLlmFacts.
Import Py PyStr PyStrFacts ParseLlm.

(** *** Step 6 *)

Lemma str_items_strings (texts : list string) :
  str_items (map PStr texts) = Returns texts.
Proof.
  induction texts as [|t texts IH]; simpl; [reflexivity | now rewrite IH].
Qed.

Lemma str_items_inv (items : list pyval) (texts : list string) :
  str_items items = Returns texts -> items = map PStr texts.
Proof.
  revert texts; induction items as [|v items IH]; intros texts H; simpl in H.
  - now injection H as <-.
  - destruct v; try discriminate.
    destruct (str_items items) as [ss|e]; simpl in H; [|discriminate].
    injection H as <-. simpl. now rewrite (IH ss eq_refl).
Qed.

Lemma join_empty_inv (sep : string) (texts : list string) :
  is_empty sep = false -> join sep texts = "" -> texts = [] \/ texts = [""].
Proof.
  intros Hsep H. destruct texts as [|t [|t' rest]]; [now left | |].
  - simpl in H. subst. now right.
  - unfold join in H. simpl in H.
    destruct t; [|discriminate]. destruct sep; discriminate.
Qed.

(** The final string is empty in one case only: a single retained
    entry that is the empty string. *)
Lemma final_result_empty_iff (retained : list pyval) :
  final_result retained = Returns "" <-> retained = [PStr ""].
Proof.
  split; [|now intros ->].
  destruct retained as [|v rest]; [discriminate|].
  unfold final_result, join_values.
  destruct (str_items (v :: rest)) as [texts|e] eqn:E; simpl; [|discriminate].
  intros H. injection H as H.
  apply str_items_inv in E. rewrite E.
  destruct (join_empty_inv nl texts eq_refl H) as [-> | ->];
    [discriminate | reflexivity].
Qed.

Lemma final_result_strings (texts : list string) :
  texts <> [] -> final_result (map PStr texts) = Returns (join nl texts).
Proof.
  intros H. destruct texts as [|t rest]; [contradiction|].
  unfold final_result. change (PStr t :: map PStr rest) with (map PStr (t :: rest)).
  unfold join_values. now rewrite str_items_strings.
Qed.

Section Driver.

Variable net : network.
Variable str_exn : pyexn -> string.
Variables (provider : string) (setup : provider_setup) (parse_description : string).

Local Abbreviation round := (process_chunk net str_exn provider setup parse_description).
Local Abbreviation rounds := (process_chunks net str_exn provider setup parse_description).
Local Abbreviation request_for := (chunk_request provider setup parse_description).

Ltac run_round :=
  unfold process_chunk, try_except, try_chunk, bind, send, lift, ret, any_exception.

(** Closes a leaf of a round: what the round adds is read off the goal. *)
Ltac added_is items :=
  exists items; eexists; split;
  [ intros out; rewrite ?app_nil_r; reflexivity | simpl; lia ].

(** A round never raises: it returns [final_output] with at most one
    entry added, and what it adds does not depend on what was there. *)
Lemma process_chunk_appends (i : nat) (chunk : string) (log : list request) :
  exists added log',
    (forall out, round i chunk out log = (Returns (out ++ added)%list, log'))
    /\ length added <= 1.
Proof.
  run_round.
  destruct (blank chunk); [added_is (@nil pyval)|].
  destruct (net log (request_for chunk)) as [resp|e].
  - destruct (negb (status_code resp =? 200)%Z);
      [added_is [PStr (error_msg i resp)]|].
    destruct (json resp) as [data|e]; simpl;
      [|added_is [PStr ("Critical Error: " ++ str_exn e)]].
    destruct (response_text provider data) as [result_text|e]; simpl;
      [|added_is [PStr ("Critical Error: " ++ str_exn e)]].
    destruct (str_in sentinel result_text) as [[|]|e]; simpl.
    + added_is (@nil pyval).
    + added_is [result_text].
    + added_is [PStr ("Critical Error: " ++ str_exn e)].
  - added_is [PStr ("Critical Error: " ++ str_exn e)].
Qed.

(** So does the loop. *)
Lemma process_chunks_appends (chunks : list string) :
  forall (i : nat) (log : list request),
  exists added log',
    forall out, rounds i chunks out log = (Returns (out ++ added)%list, log').
Proof.
  induction chunks as [|chunk rest IH]; intros i log.
  - exists [], log. intros out. now rewrite app_nil_r.
  - destruct (process_chunk_appends i chunk log) as (a1 & log1 & H1 & _).
    destruct (IH (S i) log1) as (a2 & log2 & H2).
    exists (a1 ++ a2)%list, log2. intros out.
    simpl. unfold bind. rewrite H1, H2. now rewrite app_assoc.
Qed.

(** The loop over two runs of chunks is the loop over the first, then
    over the second from where the first left the output, the index and
    the network. *)
Lemma process_chunks_app (before after : list string) :
  forall (i : nat) (out : list pyval) (log : list request),
    rounds i (before ++ after) out log
    = bind (rounds i before out)
        (fun out' => rounds (i + length before) after out') log.
Proof.
  induction before as [|chunk before IH]; intros i out log.
  - simpl. unfold bind, ret. now rewrite Nat.add_0_r.
  - simpl. unfold bind.
    destruct (round i chunk out log) as [[out1|e] log1]; [|reflexivity].
    rewrite IH. unfold bind.
    now replace (i + S (length before)) with (S i + length before) by lia.
Qed.

(** *** What one round records *)

Lemma blank_chunk_skipped (i : nat) (chunk : string) (out : list pyval)
    (log : list request) :
  blank chunk = true -> round i chunk out log = (Returns out, log).
Proof. intros H. unfold process_chunk. now rewrite H. Qed.

Lemma bad_status_recorded (i : nat) (chunk : string) (out : list pyval)
    (log : list request) (resp : response) :
  blank chunk = false ->
  net log (request_for chunk) = Returns resp ->
  status_code resp <> 200%Z ->
  round i chunk out log
  = (Returns (out ++ [PStr (error_msg i resp)])%list,
     (log ++ [request_for chunk])%list).
Proof.
  intros Hb Hnet Hst. run_round. rewrite Hb, Hnet.
  destruct (Z.eqb_spec (status_code resp) 200); [contradiction | reflexivity].
Qed.

Lemma request_exception_recorded (i : nat) (chunk : string) (out : list pyval)
    (log : list request) (e : pyexn) :
  blank chunk = false ->
  net log (request_for chunk) = Raises e ->
  round i chunk out log
  = (Returns (out ++ [PStr ("Critical Error: " ++ str_exn e)])%list,
     (log ++ [request_for chunk])%list).
Proof. intros Hb Hnet. run_round. now rewrite Hb, Hnet. Qed.

Lemma parsing_failure_recorded (i : nat) (chunk : string) (out : list pyval)
    (log : list request) (resp : response) (e : pyexn) :
  blank chunk = false ->
  net log (request_for chunk) = Returns resp ->
  status_code resp = 200%Z ->
  reading_raises provider resp e ->
  round i chunk out log
  = (Returns (out ++ [PStr ("Critical Error: " ++ str_exn e)])%list,
     (log ++ [request_for chunk])%list).
Proof.
  intros Hb Hnet Hst Hraise. run_round. rewrite Hb, Hnet, Hst. simpl.
  destruct Hraise as [Hj | [(data & Hj & Ht) | (data & rt & Hj & Ht & Hs)]];
    rewrite Hj; simpl; try rewrite Ht; simpl; try rewrite Hs; reflexivity.
Qed.

(** One round on a chunk whose response is read to a text [t]: the
    text is appended to the output unless the sentinel occurs in it. *)
Lemma sentinel_round (i : nat) (chunk : string) (out : list pyval)
    (log : list request) (resp : response) (data : pyval) (t : string) :
  blank chunk = false ->
  net log (request_for chunk) = Returns resp ->
  status_code resp = 200%Z ->
  json resp = Returns data ->
  response_text provider data = Returns (PStr t) ->
  round i chunk out log
  = (Returns (out ++ (if contains "NO_DATA" t then [] else [PStr t]))%list,
     (log ++ [request_for chunk])%list).
Proof.
  intros Hb Hnet Hst Hj Ht.
  run_round. rewrite Hb, Hnet, Hst, Hj. simpl. rewrite Ht. simpl.
  unfold sentinel. destruct (contains "NO_DATA" t); simpl;
    [now rewrite app_nil_r | reflexivity].
Qed.

End Driver.

Section Whole.

Variable net : network.
Variable str_exn : pyexn -> string.

(** The guard of step 1. *)
Lemma empty_content_guard (provider api_key : string) (chunks : list string)
    (parse_description : string) (log : list request) :
  chunks = [] \/ forallb blank chunks = true ->
  parse_with_llm net str_exn provider api_key chunks parse_description log
  = (Returns empty_content, log).
Proof.
  intros [-> | H]; unfold parse_with_llm; [reflexivity|].
  rewrite H. now rewrite orb_true_r.
Qed.

(** C10. For a provider that is none of ["gemini"], ["groq"] and
    ["openai"], and chunks that are not all blank, [parse_with_llm]
    returns "Error: Invalid provider selected." and issues no request,
    whatever the network. *)
Theorem invalid_provider_rejected (provider api_key : string)
    (chunks : list string) (parse_description : string) (log : list request) :
  provider <> "gemini" -> provider <> "groq" -> provider <> "openai" ->
  chunks <> [] -> forallb blank chunks = false ->
  parse_with_llm net str_exn provider api_key chunks parse_description log
  = (Returns "Error: Invalid provider selected.", log).
Proof.
  intros H1 H2 H3 Hne Hblank. unfold parse_with_llm, configure.
  rewrite Hblank. destruct chunks as [|c rest]; [contradiction|]. simpl.
  apply String.eqb_neq in H1, H2, H3. now rewrite H1, H2, H3.
Qed.

(** X23. When the guards of steps 1 and 2 pass, the loop returns the
    retained entries and the result is read off them:
    the fixed string when there is none, their join with line feeds
    when they are strings.  The entries of a first run of chunks come
    before those of the chunks after it.  The result is the empty
    string exactly when the one retained entry is the empty string. *)
Theorem final_result_joined (provider api_key : string) (chunks : list string)
    (parse_description : string) (log : list request) (setup : provider_setup) :
  chunks <> [] -> forallb blank chunks = false ->
  configure provider api_key = Some setup ->
  exists (retained : list pyval) (log' : list request),
    process_chunks net str_exn provider setup parse_description 0 chunks [] log
    = (Returns retained, log')
    /\ parse_with_llm net str_exn provider api_key chunks parse_description log
       = (final_result retained, log')
    /\ (retained = [] ->
        final_result retained = Returns "No matching data found in the content.")
    /\ (forall texts, retained = map PStr texts -> texts <> [] ->
        final_result retained = Returns (join nl texts))
    /\ (final_result retained = Returns "" <-> retained = [PStr ""])
    /\ (forall before after, chunks = (before ++ after)%list ->
        exists r1 r2 log1,
          process_chunks net str_exn provider setup parse_description
            0 before [] log = (Returns r1, log1)
          /\ process_chunks net str_exn provider setup parse_description
               (length before) after [] log1 = (Returns r2, log')
          /\ retained = (r1 ++ r2)%list).
Proof.
  intros Hne Hblank Hsetup.
  destruct (process_chunks_appends net str_exn provider setup parse_description
              chunks 0 log) as (retained & log' & Hloop).
  exists retained, log'.
  assert (Hrun : process_chunks net str_exn provider setup parse_description
                   0 chunks [] log = (Returns retained, log'))
    by exact (Hloop []).
  split; [exact Hrun|].
  split.
  { unfold parse_with_llm. rewrite Hblank, Hsetup.
    destruct chunks as [|c rest]; [contradiction|].
    cbv beta iota. rewrite orb_false_l. unfold bind, lift. now rewrite Hrun. }
  split; [now intros ->|].
  split; [intros texts -> Htexts; now apply final_result_strings|].
  split; [apply final_result_empty_iff|].
  intros before after ->.
  destruct (process_chunks_appends net str_exn provider setup parse_description
              before 0 log) as (r1 & log1 & H1).
  destruct (process_chunks_appends net str_exn provider setup parse_description
              after (length before) log1) as (r2 & log2 & H2).
  rewrite process_chunks_app in Hrun. unfold bind in Hrun.
  rewrite (H1 []) in Hrun. simpl in Hrun. rewrite (H2 r1) in Hrun.
  injection Hrun as <- <-.
  exists r1, r2, log1. repeat split; [exact (H1 []) | exact (H2 [])].
Qed.

Lemma final_result_texts (texts : list string) :
  final_result (map PStr texts)
  = Returns (match texts with
             | [] => "No matching data found in the content."
             | _ :: _ => join nl texts
             end).
Proof.
  destruct texts as [|t rest]; [reflexivity|].
  now apply final_result_strings.
Qed.

(** C4. Take a call whose guards pass and any chunk of it that is not
    blank and whose request is answered with status 200 and an
    envelope that reads to a text [t].  The entries the call merges are
    those the chunks before it retained, then [t] unless the sentinel
    occurs in it, then those the chunks after it retain: if "NO_DATA"
    stands anywhere in [t], with whatever text before or after it, [t]
    adds nothing to the result of [parse_with_llm]; if not, [t] stands
    in the result between the lines of the chunks around it. *)
Theorem sentinel_filtering (provider api_key : string) (setup : provider_setup)
    (parse_description : string) (before : list string) (chunk : string)
    (after : list string) (log log1 : list request) (r1 : list pyval)
    (resp : response) (data : pyval) (t : string) :
  configure provider api_key = Some setup ->
  blank chunk = false ->
  process_chunks net str_exn provider setup parse_description 0 before [] log
  = (Returns r1, log1) ->
  net log1 (chunk_request provider setup parse_description chunk) = Returns resp ->
  status_code resp = 200%Z ->
  json resp = Returns data ->
  response_text provider data = Returns (PStr t) ->
  let kept := if contains "NO_DATA" t then [] else [t] in
  exists (r2 : list pyval) (log' : list request),
    process_chunks net str_exn provider setup parse_description
      (S (length before)) after []
      (log1 ++ [chunk_request provider setup parse_description chunk])%list
    = (Returns r2, log')
    /\ parse_with_llm net str_exn provider api_key (before ++ chunk :: after)%list
         parse_description log
       = (final_result (r1 ++ map PStr kept ++ r2)%list, log')
    /\ (forall texts1 texts2,
          r1 = map PStr texts1 -> r2 = map PStr texts2 ->
          fst (parse_with_llm net str_exn provider api_key
                 (before ++ chunk :: after)%list parse_description log)
          = Returns (match (texts1 ++ kept ++ texts2)%list with
                     | [] => "No matching data found in the content."
                     | _ :: _ => join nl (texts1 ++ kept ++ texts2)%list
                     end))
    /\ (contains "NO_DATA" t = true
        <-> exists left right, t = left ++ "NO_DATA" ++ right).
Proof.
  intros Hsetup Hb Hbefore Hnet Hst Hj Ht kept.
  destruct (process_chunks_appends net str_exn provider setup parse_description
              after (S (length before))
              (log1 ++ [chunk_request provider setup parse_description chunk])%list)
    as (r2 & log' & Hafter).
  exists r2, log'.
  assert (Hcall :
            parse_with_llm net str_exn provider api_key (before ++ chunk :: after)%list
              parse_description log
            = (final_result (r1 ++ map PStr kept ++ r2)%list, log')).
  { unfold parse_with_llm.
    assert (Hguard : forallb blank (before ++ chunk :: after)%list = false).
    { rewrite forallb_app. simpl. rewrite Hb. simpl. apply andb_false_r. }
    rewrite Hguard, Hsetup.
    replace (match (before ++ chunk :: after)%list with [] => true | _ :: _ => false end)
      with false by (now destruct before).
    cbv beta iota. rewrite orb_false_l.
    unfold bind at 1. unfold lift. rewrite process_chunks_app.
    unfold bind at 1. rewrite Hbefore. simpl process_chunks. unfold bind at 1.
    rewrite (sentinel_round net str_exn provider setup parse_description
               (length before) chunk r1 log1 resp data t Hb Hnet Hst Hj Ht).
    rewrite Hafter. unfold kept.
    destruct (contains "NO_DATA" t); simpl; now rewrite <- app_assoc. }
  split; [exact (Hafter [])|].
  split; [exact Hcall|].
  split; [|apply contains_iff].
  intros texts1 texts2 -> ->. rewrite Hcall. cbn [fst].
  rewrite <- !map_app. apply final_result_texts.
Qed.

(** When every retained entry is a string, the call returns. *)
Lemma parse_with_llm_returns_on_strings (provider api_key : string)
    (chunks : list string) (parse_description : string) (log : list request)
    (setup : provider_setup) (texts : list string) (log' : list request) :
  configure provider api_key = Some setup ->
  process_chunks net str_exn provider setup parse_description 0 chunks [] log
  = (Returns (map PStr texts), log') ->
  exists answer,
    fst (parse_with_llm net str_exn provider api_key chunks parse_description log)
    = Returns answer.
Proof.
  intros Hsetup Hrun. unfold parse_with_llm.
  destruct (_ || _); [now exists empty_content|].
  rewrite Hsetup. unfold bind, lift. rewrite Hrun.
  destruct texts as [|t rest]; [now exists no_matching_data|].
  rewrite final_result_strings by discriminate. now eexists.
Qed.

End Whole.

(** C4 at two chunks, the first answered with a field and the second
    with text around the sentinel. *)
Lemma sentinel_filtering_witness :
  let setup := mkSetup "gpt-4o-mini" "https://api.openai.com/v1/chat/completions"
                 [("Content-Type", "application/json"); ("Authorization", "Bearer key")] in
  let kept := if contains "NO_DATA" "n/a NO_DATA here" then [] else ["n/a NO_DATA here"] in
  exists (r2 : list pyval) (log' : list request),
    process_chunks Models.field_then_noise Models.carried_text "openai" setup "FieldX"
      (S (length ["data1"])) ["data3"] []
      ([chunk_request "openai" setup "FieldX" "data1"]
       ++ [chunk_request "openai" setup "FieldX" "data2"])%list
    = (Returns r2, log')
    /\ parse_with_llm Models.field_then_noise Models.carried_text "openai" "key"
         (["data1"] ++ "data2" :: ["data3"])%list "FieldX" []
       = (final_result ([PStr "FieldX: foo"] ++ map PStr kept ++ r2)%list, log')
    /\ (forall texts1 texts2,
          [PStr "FieldX: foo"] = map PStr texts1 -> r2 = map PStr texts2 ->
          fst (parse_with_llm Models.field_then_noise Models.carried_text "openai" "key"
                 (["data1"] ++ "data2" :: ["data3"])%list "FieldX" [])
          = Returns (match (texts1 ++ kept ++ texts2)%list with
                     | [] => "No matching data found in the content."
                     | _ :: _ => join nl (texts1 ++ kept ++ texts2)%list
                     end))
    /\ (contains "NO_DATA" "n/a NO_DATA here" = true
        <-> exists left right, "n/a NO_DATA here" = left ++ "NO_DATA" ++ right).
Proof.
  intros setup.
  apply (sentinel_filtering Models.field_then_noise Models.carried_text
           "openai" "key" setup "FieldX" ["data1"] "data2" ["data3"] []
           [chunk_request "openai" setup "FieldX" "data1"] [PStr "FieldX: foo"]
           (Models.ok_json "" (Models.chat_envelope (PStr "n/a NO_DATA here")))
           (Models.chat_envelope (PStr "n/a NO_DATA here")) "n/a NO_DATA here");
    reflexivity.
Defined.

(** The example of the specification: two chunks, the first answered
    with a field and the second with the sentinel. *)
Lemma sentinel_example :
  fst (parse_with_llm Models.field_then_sentinel Models.carried_text
         "openai" "key" ["data1"; "data2"] "FieldX" [])
  = Returns "FieldX: foo".
Proof. reflexivity. Qed.

(** C10 at the provider ["claude"]. *)
Lemma invalid_provider_rejected_witness :
  parse_with_llm (Models.always (Raises (RequestException "unreachable")))
    Models.carried_text "claude" "key" ["data"] "prices" []
  = (Returns "Error: Invalid provider selected.", []).
Proof.
  apply (invalid_provider_rejected
           (Models.always (Raises (RequestException "unreachable")))
           Models.carried_text "claude" "key" ["data"] "prices" []);
    (discriminate || reflexivity).
Defined.

(** X23 at three chunks of which the second is blank and the others
    get a text each. *)
Lemma final_result_joined_witness :
  exists (retained : list pyval) (log' : list request),
    parse_with_llm Models.field_then_sentinel Models.carried_text
      "groq" "key" ["data1"; "  "; "data2"] "FieldX" []
    = (final_result retained, log')
    /\ retained = [PStr "FieldX: foo"].
Proof.
  destruct (final_result_joined Models.field_then_sentinel Models.carried_text
              "groq" "key" ["data1"; "  "; "data2"] "FieldX" []
              (mkSetup "llama3-70b-8192"
                 "https://api.groq.com/openai/v1/chat/completions"
                 [("Content-Type", "application/json");
                  ("Authorization", "Bearer key")])
              ltac:(discriminate) eq_refl eq_refl)
    as (retained & log' & Hloop & Hcall & _).
  exists retained, log'. split; [exact Hcall|].
  vm_compute in Hloop. now injection Hloop as <- _.
Defined.

(** C5 at a model that replies with the empty string: step 6 tests
    the list of retained entries, not the joined text, so the reply is
    retained and the caller receives the empty string that the fixed
    message is there to replace. *)
Theorem empty_reply_gives_empty_output :
  fst (parse_with_llm
         (Models.always (Returns (Models.ok_json "" (Models.chat_envelope (PStr "")))))
         Models.carried_text "openai" "key" ["data"] "prices" [])
  = Returns "".
Proof. reflexivity. Qed.

(** C3 at a reply whose message content is a list: the text is not a
    string, the sentinel test passes it, the loop retains it, and the
    join of step 6, which no [try] covers, raises [TypeError]. *)
Theorem list_content_raises :
  fst (parse_with_llm
         (Models.always
            (Returns (Models.ok_json "" (Models.chat_envelope (PList [PStr "x"])))))
         Models.carried_text "openai" "key" ["data"] "prices" [])
  = Raises TypeError.
Proof. reflexivity. Qed.

End ParseLlmFacts.

(** ** The provider-delegated fetch *)

Module AdvanceScrapeFacts.
Import Py PyStr AdvanceScrape.

Section Providers.

Variable net : network.
Variable str_exn : pyexn -> string.

Lemma no_provider_fails (url : string) (provider api_key : option string)
    (timeout : Z) (options : list (string * pyval)) (log : list request) :
  provider = None
  \/ (exists p, provider = Some p /\ (lower p = "none" \/ lower p = "basic")) ->
  generic_fetch net str_exn url provider api_key timeout options log
  = (Raises (AdvancedScraperError no_provider_selected), log).
Proof.
  intros [-> | (p & -> & [H | H])]; unfold generic_fetch; [reflexivity | |];
    now rewrite H.
Qed.

Lemma missing_key_fails (url provider : string) (api_key : option string)
    (timeout : Z) (options : list (string * pyval)) (log : list request) :
  lower provider <> "none" -> lower provider <> "basic" ->
  api_key = None \/ api_key = Some "" ->
  generic_fetch net str_exn url (Some provider) api_key timeout options log
  = (Raises (AdvancedScraperError ("API key is required for provider: " ++ provider)),
     log).
Proof.
  intros H1 H2 Hkey. unfold generic_fetch. simpl.
  apply String.eqb_neq in H1, H2. rewrite H1, H2. simpl.
  now destruct Hkey as [-> | ->].
Qed.

Lemma unknown_provider_fails (url provider api_key : string)
    (timeout : Z) (options : list (string * pyval)) (log : list request) :
  lower provider <> "none" -> lower provider <> "basic" ->
  api_key <> "" ->
  ~ In (lower provider) supported ->
  generic_fetch net str_exn url (Some provider) (Some api_key) timeout options log
  = (Raises (AdvancedScraperError ("Unknown provider: " ++ provider)), log).
Proof.
  intros H1 H2 Hkey Hun. unfold generic_fetch. simpl.
  apply String.eqb_neq in H1, H2. rewrite H1, H2. simpl.
  destruct api_key as [|c key]; [contradiction|].
  unfold supported in Hun. simpl in Hun.
  repeat match goal with
         | |- context [String.eqb (lower provider) ?name] =>
             destruct (String.eqb_spec (lower provider) name) as [E|_];
             [exfalso; apply Hun; rewrite E; tauto|]
         end.
  reflexivity.
Qed.

(** C7. For every URL, timeout and network: a call that the guards
    stop raises [AdvancedScraperError] with one of the three messages of
    the guards, and the requests issued are those issued before the
    call, so none was sent. *)
Theorem generic_fetch_fails_fast (url : string) (provider api_key : option string)
    (timeout : Z) (options : list (string * pyval)) (log : list request) :
  stopped provider api_key ->
  exists msg,
    generic_fetch net str_exn url provider api_key timeout options log
    = (Raises (AdvancedScraperError msg), log)
    /\ (msg = "No provider selected. Use the basic scraper or select a provider."
        \/ exists p, provider = Some p
                     /\ (msg = "API key is required for provider: " ++ p
                         \/ msg = "Unknown provider: " ++ p)).
Proof.
  intros Hstop.
  destruct provider as [p|];
    [|eexists; split; [apply no_provider_fails; now left | now left]].
  destruct (string_dec (lower p) "none") as [Hn|Hn];
    [eexists; split; [apply no_provider_fails; right; eauto | now left]|].
  destruct (string_dec (lower p) "basic") as [Hb|Hb];
    [eexists; split; [apply no_provider_fails; right; eauto | now left]|].
  destruct api_key as [[|c key]|];
    try (eexists; split; [apply missing_key_fails; tauto | right; eauto]).
  destruct Hstop as [H | [(p' & H & [H' | H']) | [H | [H | (p' & H & Hun)]]]];
    try discriminate; injection H as <-; try contradiction.
  eexists. split; [now apply unknown_provider_fails | right; eauto].
Qed.

End Providers.

(** C7 at an empty credential. *)
Lemma generic_fetch_fails_fast_witness :
  exists msg,
    generic_fetch (Models.always (Raises (RequestException "unreachable")))
      Models.carried_text "https://example.com" (Some "ZenRows") (Some "")
      DEFAULT_TIMEOUT [] []
    = (Raises (AdvancedScraperError msg), [])
    /\ (msg = "No provider selected. Use the basic scraper or select a provider."
        \/ exists p, Some "ZenRows" = Some p
                     /\ (msg = "API key is required for provider: " ++ p
                         \/ msg = "Unknown provider: " ++ p)).
Proof.
  apply (generic_fetch_fails_fast
           (Models.always (Raises (RequestException "unreachable")))
           Models.carried_text "https://example.com" (Some "ZenRows") (Some "")
           DEFAULT_TIMEOUT [] []).
  unfold stopped. right; right; right; left. reflexivity.
Defined.

(** With a supported provider and a credential the call does go to the
    network: the guards stop nothing else. *)
Lemma supported_provider_fetches :
  snd (generic_fetch (Models.always (Returns (mkResponse 200 "<html></html>" (Raises ValueError))))
         Models.carried_text "https://example.com" (Some "ZenRows") (Some "secret")
         DEFAULT_TIMEOUT [] [])
  = [mkRequest GET "https://api.zenrows.com/v1/"
       [("apikey", "secret"); ("url", "https://example.com")] None None (Some 30%Z)].
Proof. reflexivity. Qed.

End AdvanceScrapeFacts.

(** ** The tabular reconstructor and the basic page *)

Module MainFacts.
Import Py PyStr PyStrFacts Main.

(** *** Tables built from rows *)





(** Rows of one length: the widest row after the first is as long as
    the first. *)
Lemma one_length_widest (n : nat) (lens : list nat) :
  lens <> [] -> forallb (Nat.eqb n) lens = true -> fold_right Nat.max 0 lens = n.
Proof.
  induction lens as [|m lens IH]; [contradiction|].
  intros _ H. simpl in H. apply andb_true_iff in H as [Hm Hrest].
  apply Nat.eqb_eq in Hm. subst m. simpl.
  destruct lens as [|m' lens']; [simpl; lia|].
  rewrite IH by (discriminate || assumption). lia.
Qed.

Lemma pad_full (width : nat) (row : list pyval) :
  length row = width -> pad width row = row.
Proof.
  intros <-. unfold pad. rewrite Nat.sub_diag. simpl. apply app_nil_r.
Qed.

Lemma one_length_iff (n : nat) (lens : list nat) :
  forallb (Nat.eqb n) lens = true <-> Forall (fun m => m = n) lens.
Proof.
  rewrite forallb_forall, Forall_forall.
  split; intros H m Hm; specialize (H m Hm);
    [symmetry; now apply Nat.eqb_eq | apply Nat.eqb_eq; now symmetry].
Qed.

(** Rows that all have as many fields as there are names make the
    table as they are. *)
Lemma frame_of_rows_uniform (data : list (list string)) (names : list string) :
  data <> [] ->
  Forall (fun row => length row = length names) data ->
  frame_of_rows data names = Returns (mkFrame names (map (map PStr) data)).
Proof.
  intros Hdata Hsame. unfold frame_of_rows.
  destruct data as [|row data]; [contradiction|].
  remember (row :: data) as rows eqn:Erows.
  assert (Hwidth : fold_right Nat.max 0 (map (@length string) rows) = length names).
  { apply one_length_widest; [subst rows; discriminate|].
    apply one_length_iff, Forall_map. exact Hsame. }
  rewrite Hwidth, Nat.eqb_refl. do 2 f_equal.
  apply map_ext_in. intros r Hin. apply pad_full. rewrite length_map.
  rewrite Forall_forall in Hsame. now apply Hsame.
Qed.

Section Reconstructor.

Variable read_html : string -> result (list DataFrame).
Variable read_csv : string -> ascii -> result DataFrame.


(** The loop goes through the candidates in order and stops at the
    first whose parse returns. *)
Lemma try_separators_order (seps : list ascii) (header : string)
    (lines : list string) :
  match try_separators read_csv seps header lines with
  | (tried, Some df) =>
      exists failed sep untried,
        candidates seps header = (failed ++ sep :: untried)%list
        /\ tried = (failed ++ [sep])%list
        /\ Forall (raises read_csv lines) failed
        /\ read_csv (join nl lines) sep = Returns df
  | (tried, None) =>
      tried = candidates seps header /\ Forall (raises read_csv lines) tried
  end.
Proof.
  induction seps as [|sep seps IH]; simpl; [auto|].
  destruct (contains (chr sep) header); [|exact IH].
  destruct (read_csv (join nl lines) sep) as [df|e] eqn:Ecsv.
  - exists [], sep, (candidates seps header). auto.
  - destruct (try_separators read_csv seps header lines) as [tried [df|]].
    + destruct IH as (failed & sep' & untried & Hc & Ht & Hf & Hok).
      exists (sep :: failed), sep', untried.
      unfold candidates in *. rewrite Hc, Ht.
      repeat split; auto. constructor; [now exists e | assumption].
    + destruct IH as [Ht Hf]. unfold candidates in *. rewrite Ht.
      split; [reflexivity|]. rewrite <- Ht.
      constructor; [now exists e | assumption].
Qed.

Lemma try_to_dataframe_after_html (parsed_text : string) :
  no_table read_html parsed_text ->
  try_to_dataframe read_html read_csv parsed_text
  = match stripped_lines parsed_text with
    | [] => Returns empty_frame
    | (header :: _) as lines =>
        match snd (try_separators read_csv separators header lines) with
        | Some df => Returns df
        | None => whitespace_or_text lines
        end
    end.
Proof.
  unfold no_table, try_to_dataframe.
  destruct (read_html parsed_text) as [[|df dfs]|e]; intros H;
    try contradiction; now destruct (stripped_lines parsed_text).
Qed.

(** C2, as the code has it.  When the text holds no markup table and
    has a first non-empty line, the delimited strategy looks for the
    separators in that line only, in the order tab, pipe, comma,
    semicolon, and parses the whole line set with each one found until
    a parse returns: the table of that parse is the result.  A parse
    that raises passes the turn to the next separator found in the
    line; the whitespace-column strategy runs when every one of them
    has raised. *)
Theorem delimited_strategy_order (parsed_text header : string) (rest : list string) :
  no_table read_html parsed_text ->
  stripped_lines parsed_text = header :: rest ->
  let lines := header :: rest in
  let found_in_header :=
    filter (fun sep => contains (chr sep) header)
      [tab; "|"%char; ","%char; ";"%char] in
  match try_separators read_csv separators header lines with
  | (tried, Some df) =>
      (exists failed sep untried,
         found_in_header = (failed ++ sep :: untried)%list
         /\ tried = (failed ++ [sep])%list
         /\ Forall (raises read_csv lines) failed
         /\ read_csv (join nl lines) sep = Returns df)
      /\ try_to_dataframe read_html read_csv parsed_text = Returns df
  | (tried, None) =>
      tried = found_in_header
      /\ Forall (raises read_csv lines) tried
      /\ try_to_dataframe read_html read_csv parsed_text = whitespace_or_text lines
  end.
Proof.
  intros Hhtml Hlines. cbv zeta.
  rewrite (try_to_dataframe_after_html parsed_text Hhtml), Hlines.
  cbv beta iota zeta.
  pose proof (try_separators_order separators header (header :: rest)) as Horder.
  destruct (try_separators read_csv separators header (header :: rest))
    as [tried [df|]]; cbn [snd].
  - split; [exact Horder | reflexivity].
  - destruct Horder as [Ht Hf]. repeat split; assumption.
Qed.




End Reconstructor.




(** C2 as the code has it, at the three lines of [Models.tabs_and_commas]. *)
Lemma delimited_strategy_order_witness :
  match try_separators Models.strict_csv separators
          ("a" ++ chr tab ++ "b,c") (stripped_lines Models.tabs_and_commas) with
  | (tried, Some df) =>
      try_to_dataframe Models.no_tables Models.strict_csv Models.tabs_and_commas
      = Returns df
  | (tried, None) =>
      try_to_dataframe Models.no_tables Models.strict_csv Models.tabs_and_commas
      = whitespace_or_text (stripped_lines Models.tabs_and_commas)
  end.
Proof.
  pose proof (delimited_strategy_order Models.no_tables Models.strict_csv
                Models.tabs_and_commas ("a" ++ chr tab ++ "b,c")
                ["1" ++ chr tab ++ "2,3"; "4" ++ chr tab ++ "5" ++ chr tab ++ "6,7"]
                I eq_refl) as H.
  cbv zeta in H.
  change (stripped_lines Models.tabs_and_commas)
    with [("a" ++ chr tab ++ "b,c");
          "1" ++ chr tab ++ "2,3"; "4" ++ chr tab ++ "5" ++ chr tab ++ "6,7"].
  destruct (try_separators Models.strict_csv separators _ _) as [tried [df|]].
  - exact (proj2 H).
  - exact (proj2 (proj2 H)).
Defined.

(** C2 as stated fails.  The first line holds a tab and a comma; the
    parse with the tab, the first separator found, raises on the third
    line; the comma is tried all the same and its table is the result,
    not the single-column table the later strategies would give. *)
Lemma later_separator_still_tried :
  let lines := stripped_lines Models.tabs_and_commas in
  let by_comma :=
    mkFrame ["a" ++ chr tab ++ "b"; "c"]
      [[PStr ("1" ++ chr tab ++ "2"); PStr "3"];
       [PStr ("4" ++ chr tab ++ "5" ++ chr tab ++ "6"); PStr "7"]] in
  Models.strict_csv (join nl lines) tab = Raises ValueError
  /\ try_separators Models.strict_csv separators (hd "" lines) lines
     = ([tab; ","%char], Some by_comma)
  /\ try_to_dataframe Models.no_tables Models.strict_csv Models.tabs_and_commas
     = Returns by_comma
  /\ whitespace_or_text lines = Returns (text_frame lines)
  /\ by_comma <> text_frame lines.
Proof.
  repeat split; try reflexivity.
  vm_compute. discriminate.
Qed.

(** *** The basic page *)

(** C9. A fetch that fails comes back as a string that starts with
    "ERROR: Failed to scrape the website."; a fetch that succeeds comes
    back as the text of the page; the basic page tells them apart by
    the prefix "ERROR:" alone.  So there is a page, fetched with status
    200, whose text starts with "ERROR:" and which the basic page
    reports as a failed fetch. *)
Theorem fetch_outcome_in_band :
  (forall net str_exn url timeout log e,
     net log (Scrape.page_request url timeout) = Raises e ->
     is_request_exception e = true ->
     exists details,
       Scrape.scrape_website net str_exn url timeout log
       = (Returns ("ERROR: Failed to scrape the website." ++ details),
          (log ++ [Scrape.page_request url timeout])%list))
  /\ (forall net str_exn url timeout log resp,
        net log (Scrape.page_request url timeout) = Returns resp ->
        (400 <= status_code resp < 600)%Z ->
        exists details,
          Scrape.scrape_website net str_exn url timeout log
          = (Returns ("ERROR: Failed to scrape the website." ++ details),
             (log ++ [Scrape.page_request url timeout])%list))
  /\ (forall net str_exn url timeout log resp,
        net log (Scrape.page_request url timeout) = Returns resp ->
        ~ (400 <= status_code resp < 600)%Z ->
        Scrape.scrape_website net str_exn url timeout log
        = (Returns (text resp), (log ++ [Scrape.page_request url timeout])%list))
  /\ (forall details,
        startswith ("ERROR: Failed to scrape the website." ++ details) "ERROR:" = true)
  /\ (forall net str_exn url log result log',
        url <> "" ->
        Scrape.scrape_website net str_exn url 20 log = (Returns result, log') ->
        click_scrape net str_exn url log
        = (Returns (if startswith result "ERROR:" then ShowError result
                    else Scraped result), log'))
  /\ (exists net str_exn url page,
        net [] (Scrape.page_request url 20) = Returns (mkResponse 200 page (Raises ValueError))
        /\ startswith page "ERROR:" = true
        /\ fst (Scrape.scrape_website net str_exn url 20 []) = Returns page
        /\ fst (click_scrape net str_exn url []) = Returns (ShowError page)).
Proof.
  assert (Hstatus : forall resp,
            (400 <= status_code resp < 600)%Z ->
            raise_for_status resp = Raises (HTTPError (status_code resp))).
  { intros resp H. unfold raise_for_status.
    destruct (Z.leb_spec 400 (status_code resp)); [|lia].
    destruct (Z.ltb_spec (status_code resp) 600); [reflexivity | lia]. }
  assert (Hfine : forall resp,
            ~ (400 <= status_code resp < 600)%Z ->
            raise_for_status resp = Returns tt).
  { intros resp H. unfold raise_for_status.
    destruct (Z.leb_spec 400 (status_code resp)); [|reflexivity].
    destruct (Z.ltb_spec (status_code resp) 600); [lia | reflexivity]. }
  repeat split.
  - intros net str_exn url timeout log e Hnet He.
    eexists. unfold Scrape.scrape_website, try_except, bind, send.
    rewrite Hnet, He. unfold ret. reflexivity.
  - intros net str_exn url timeout log resp Hnet Hst.
    eexists. unfold Scrape.scrape_website, try_except, bind, send, lift.
    rewrite Hnet, (Hstatus resp Hst). simpl. unfold ret. reflexivity.
  - intros net str_exn url timeout log resp Hnet Hst.
    unfold Scrape.scrape_website, try_except, bind, send, lift.
    now rewrite Hnet, (Hfine resp Hst).
  - intros net str_exn url log result log' Hurl Hrun.
    unfold click_scrape.
    replace (is_empty url) with false by (destruct url; [contradiction | reflexivity]).
    unfold bind. rewrite Hrun. unfold is_error_text, ret.
    now destruct (startswith result "ERROR:").
  - exists (Models.always (Returns (mkResponse 200 "ERROR: 42 is not prime" (Raises ValueError)))),
      Models.carried_text, "https://example.com/errors", "ERROR: 42 is not prime".
    repeat split.
Qed.

End MainFacts.

(** * Further properties *)

(** ** The chunker at its edges *)

Module ChunkerMore.
Import Py PyStr PyRange PyStrFacts RangeFacts LineFacts Scrape.

Lemma range_scan_descending_empty (fuel : nat) (i stop step : Z) :
  (step < 0)%Z -> (i <= stop)%Z -> range_scan fuel i stop step = [].
Proof.
  intros Hs Hi. destruct fuel as [|fuel]; simpl; [reflexivity|].
  destruct (Z.ltb_spec 0 step); [lia|].
  destruct (Z.ltb_spec stop i); [lia | reflexivity].
Qed.

(** X1. A bound that is not positive does not chunk: zero raises
    [ValueError], and with a negative bound the result is the empty
    list for every document, so the whole text is dropped. *)
Theorem split_dom_content_nonpositive (D : string) (L : Z) :
  (L <= 0)%Z ->
  split_dom_content D L = if (L =? 0)%Z then Raises ValueError else Returns [].
Proof.
  intros HL. unfold split_dom_content, range.
  destruct (Z.eqb_spec L 0) as [->|Hz]; [reflexivity|].
  rewrite range_scan_descending_empty by (unfold len; lia). reflexivity.
Qed.

Lemma split_dom_content_nonpositive_witness :
  split_dom_content "abcdefg" (-3)
  = if (-3 =? 0)%Z then Raises ValueError else Returns [].
Proof. apply (split_dom_content_nonpositive "abcdefg" (-3)). lia. Defined.

(** X2. A document that is not empty and no longer than the bound is
    one chunk, the document itself. *)
Theorem split_dom_content_fits (D : string) (L : Z) :
  (0 < len D <= L)%Z -> split_dom_content D L = Returns [D].
Proof.
  intros [Hpos Hfit]. rewrite ScrapeFacts.split_dom_content_positive by lia.
  assert (Hc : count 0 (len D) L = 1).
  { unfold count. replace (len D - 0 + L - 1)%Z with ((len D - 1) + 1 * L)%Z by lia.
    rewrite Z.div_add by lia. rewrite Z.div_small by lia. reflexivity. }
  rewrite Hc. simpl. rewrite take_all; [reflexivity|].
  unfold len in Hfit. lia.
Qed.

Lemma split_dom_content_fits_witness :
  split_dom_content "abcdefg" default_max_length = Returns ["abcdefg"].
Proof.
  apply (split_dom_content_fits "abcdefg" default_max_length).
  unfold len, default_max_length. simpl. lia.
Defined.

Lemma all_chars_take (p : ascii -> bool) (n : nat) (s : string) :
  all_chars p s = true -> all_chars p (take n s) = true.
Proof.
  revert s; induction n as [|n IH]; intros [|c s] H; simpl in *; auto.
  apply andb_true_iff in H as [Hc Hs]. now rewrite Hc, IH.
Qed.

Lemma all_chars_drop (p : ascii -> bool) (n : nat) (s : string) :
  all_chars p s = true -> all_chars p (drop n s) = true.
Proof.
  revert s; induction n as [|n IH]; intros [|c s] H; simpl in *; auto.
  apply andb_true_iff in H as [Hc Hs]. now apply IH.
Qed.

Lemma whitespace_is_blank (chunk : string) :
  all_chars isspace chunk = true -> ParseLlm.blank chunk = true.
Proof.
  intros H. unfold ParseLlm.blank. now rewrite strip_whitespace.
Qed.

(** X3. A document made of whitespace is cut into chunks that are all
    blank, and [parse_with_llm] on them returns the empty-content
    message without a request, for every provider and network. *)
Theorem whitespace_document_sends_nothing (D : string) (L : Z) :
  (0 < L)%Z -> all_chars isspace D = true ->
  exists chunks,
    split_dom_content D L = Returns chunks
    /\ forallb ParseLlm.blank chunks = true
    /\ forall net str_exn provider api_key parse_description log,
         ParseLlm.parse_with_llm net str_exn provider api_key chunks
           parse_description log
         = (Returns ParseLlm.empty_content, log).
Proof.
  intros HL Hws. eexists. split; [now apply ScrapeFacts.split_dom_content_positive|].
  assert (Hblank : forallb ParseLlm.blank
                     (map (fun k => take (Z.to_nat L) (drop (k * Z.to_nat L) D))
                        (seq 0 (count 0 (len D) L))) = true).
  { apply forallb_forall. intros chunk Hin. apply in_map_iff in Hin as (k & <- & _).
    now apply whitespace_is_blank, all_chars_take, all_chars_drop. }
  split; [exact Hblank|].
  intros. apply ParseLlmFacts.empty_content_guard. now right.
Qed.

Lemma whitespace_document_sends_nothing_witness :
  exists chunks,
    split_dom_content ("  " ++ nl ++ "   ") 4 = Returns chunks
    /\ forallb ParseLlm.blank chunks = true
    /\ forall net str_exn provider api_key parse_description log,
         ParseLlm.parse_with_llm net str_exn provider api_key chunks
           parse_description log
         = (Returns ParseLlm.empty_content, log).
Proof.
  apply (whitespace_document_sends_nothing ("  " ++ nl ++ "   ") 4);
    [lia | reflexivity].
Defined.

End ChunkerMore.

(** ** The extraction driver: requests, outages, what can escape *)

Module ParseLlmMore.
Import Py PyStr PyStrFacts ParseLlm ParseLlmFacts Enumerate.

Lemma str_items_raises (items : list pyval) (e : pyexn) :
  str_items items = Raises e ->
  e = TypeError /\ exists v, In v items /\ forall s, v <> PStr s.
Proof.
  induction items as [|v items IH]; simpl; [discriminate|].
  destruct v;
    try (intros H; injection H as <-; split; [reflexivity|];
         eexists; split; [now left | discriminate]).
  destruct (str_items items) as [ss|e']; simpl; [discriminate|].
  intros H. injection H as <-.
  destruct (IH eq_refl) as (He & v & Hin & Hv).
  split; [assumption|]. exists v. split; [now right | assumption].
Qed.

Section Driver.

Variable net : network.
Variable str_exn : pyexn -> string.
Variables (provider : string) (setup : provider_setup) (parse_description : string).

Local Abbreviation round := (process_chunk net str_exn provider setup parse_description).
Local Abbreviation rounds := (process_chunks net str_exn provider setup parse_description).
Local Abbreviation request_for := (chunk_request provider setup parse_description).
Local Abbreviation sent := (fun chunk : string => negb (blank chunk)).

Ltac run_round :=
  unfold process_chunk, try_except, try_chunk, bind, send, lift, ret, any_exception.

Ltac round_adds items :=
  exists items; split; [rewrite ?app_nil_r; reflexivity | simpl; lia].

(** A round sends nothing for a blank chunk and one request for any
    other, and retains at most one entry when it sent. *)
Lemma round_outcome (i : nat) (chunk : string) (out : list pyval)
    (log : list request) :
  exists added,
    round i chunk out log
    = (Returns (out ++ added)%list,
       if blank chunk then log else (log ++ [request_for chunk])%list)
    /\ length added <= length (filter sent [chunk]).
Proof.
  run_round. simpl filter.
  destruct (blank chunk); simpl negb; cbv iota; [round_adds (@nil pyval)|].
  destruct (net log (request_for chunk)) as [resp|e].
  - destruct (negb (status_code resp =? 200)%Z);
      [round_adds [PStr (error_msg i resp)]|].
    destruct (json resp) as [data|e]; simpl;
      [|round_adds [PStr ("Critical Error: " ++ str_exn e)]].
    destruct (response_text provider data) as [result_text|e]; simpl;
      [|round_adds [PStr ("Critical Error: " ++ str_exn e)]].
    destruct (str_in sentinel result_text) as [[|]|e]; simpl.
    + round_adds (@nil pyval).
    + round_adds [result_text].
    + round_adds [PStr ("Critical Error: " ++ str_exn e)].
  - round_adds [PStr ("Critical Error: " ++ str_exn e)].
Qed.

Lemma rounds_outcome (chunks : list string) :
  forall (i : nat) (out : list pyval) (log : list request),
  exists added,
    rounds i chunks out log
    = (Returns (out ++ added)%list,
       (log ++ map request_for (filter sent chunks))%list)
    /\ length added <= length (filter sent chunks).
Proof.
  induction chunks as [|chunk rest IH]; intros i out log.
  - exists []. simpl. unfold ret. now rewrite !app_nil_r.
  - destruct (round_outcome i chunk out log) as (a1 & H1 & L1).
    simpl process_chunks. unfold bind. rewrite H1.
    destruct (IH (S i) (out ++ a1)%list
                (if blank chunk then log else (log ++ [request_for chunk])%list))
      as (a2 & H2 & L2).
    exists (a1 ++ a2)%list. rewrite H2, <- (app_assoc out a1 a2).
    simpl filter in *.
    destruct (blank chunk); simpl negb in *; cbv iota in *.
    + split; [reflexivity|]. rewrite length_app. simpl in L1. lia.
    + split; [simpl map; now rewrite <- app_assoc|].
      rewrite length_app. simpl in *. lia.
Qed.

(** When every request is answered with the same response of a status
    other than 200, the loop retains one error message for each chunk
    that is not blank, under the index the chunk has in the list. *)
Lemma rounds_outage (resp : response) (chunks : list string) :
  (forall log rq, net log rq = Returns resp) ->
  status_code resp <> 200%Z ->
  forall (i : nat) (out : list pyval) (log : list request),
  exists log',
    rounds i chunks out log
    = (Returns (out ++ map PStr
                  (map (fun p => error_msg (fst p) resp)
                     (filter (fun p => sent (snd p)) (enumerate_from i chunks))))%list,
       log').
Proof.
  intros Hnet Hst. induction chunks as [|chunk rest IH]; intros i out log.
  - exists log. simpl. unfold ret. now rewrite app_nil_r.
  - simpl process_chunks. unfold bind. simpl enumerate_from. simpl filter.
    destruct (blank chunk) eqn:Hb; simpl negb; cbv iota.
    + rewrite blank_chunk_skipped by assumption. apply IH.
    + rewrite (bad_status_recorded net str_exn provider setup parse_description
                 i chunk out log resp Hb (Hnet _ _) Hst).
      destruct (IH (S i) (out ++ [PStr (error_msg i resp)])%list
                  (log ++ [request_for chunk])%list) as (log' & H).
      exists log'. rewrite H. simpl. now rewrite <- app_assoc.
Qed.

(** X7. A Gemini response with status 200 whose JSON object has no
    ["candidates"] entry, or an empty or otherwise false one, is
    recorded as the fixed no-candidates error; it is not dropped. *)
Theorem gemini_without_candidates (gemini_setup : provider_setup)
    (i : nat) (chunk : string) (out : list pyval) (log : list request)
    (resp : response) (entries : list (string * pyval)) :
  blank chunk = false ->
  net log (chunk_request "gemini" gemini_setup parse_description chunk) = Returns resp ->
  status_code resp = 200%Z ->
  json resp = Returns (PDict entries) ->
  match lookup "candidates" entries with
  | Some candidates => truthy candidates = false
  | None => True
  end ->
  process_chunk net str_exn "gemini" gemini_setup parse_description i chunk out log
  = (Returns (out ++ [PStr "Error: Gemini returned no candidates (Safety filter?)"])%list,
     (log ++ [chunk_request "gemini" gemini_setup parse_description chunk])%list).
Proof.
  intros Hb Hnet Hst Hj Hc. run_round. rewrite Hb, Hnet, Hst, Hj. simpl.
  unfold response_text. simpl String.eqb. cbv iota.
  unfold str_in at 1. unfold getitem_key.
  destruct (lookup "candidates" entries) as [candidates|]; simpl.
  - rewrite Hc. reflexivity.
  - reflexivity.
Qed.

End Driver.

Section Whole.

Variable net : network.
Variable str_exn : pyexn -> string.

Local Abbreviation sent := (fun chunk : string => negb (blank chunk)).

(** X4. When the guards pass, [parse_with_llm] sends one request for
    each chunk that is not blank, in the order of the chunks and all
    with the same provider setup, sends nothing for a blank chunk, and
    retains at most one entry for each request. *)
Theorem one_request_per_chunk (provider api_key : string) (chunks : list string)
    (parse_description : string) (log : list request) (setup : provider_setup) :
  chunks <> [] -> forallb blank chunks = false ->
  configure provider api_key = Some setup ->
  let requests :=
    map (chunk_request provider setup parse_description) (filter sent chunks) in
  snd (parse_with_llm net str_exn provider api_key chunks parse_description log)
  = (log ++ requests)%list
  /\ exists retained,
       process_chunks net str_exn provider setup parse_description 0 chunks [] log
       = (Returns retained, (log ++ requests)%list)
       /\ length retained <= length requests.
Proof.
  intros Hne Hblank Hsetup requests.
  destruct (rounds_outcome net str_exn provider setup parse_description
              chunks 0 [] log) as (retained & Hrun & Hlen).
  simpl app in Hrun. fold requests in Hrun.
  split.
  - unfold parse_with_llm. rewrite Hblank, Hsetup.
    destruct chunks as [|c rest]; [contradiction|].
    cbv beta iota. rewrite orb_false_l. unfold bind, lift. now rewrite Hrun.
  - exists retained. split; [exact Hrun|].
    unfold requests. now rewrite length_map.
Qed.

(** X5. Chunks that hold whitespace only, or no chunk at all, stop
    [parse_with_llm] at its first guard: it returns the empty-content
    message and sends nothing, also for a provider it does not know. *)
Theorem blank_chunks_send_nothing (provider api_key : string)
    (chunks : list string) (parse_description : string) (log : list request) :
  (forall chunk, In chunk chunks -> all_chars isspace chunk = true) ->
  parse_with_llm net str_exn provider api_key chunks parse_description log
  = (Returns "Error: The text content to parse is empty. Please check your scraping step.",
     log).
Proof.
  intros Hws. unfold parse_with_llm.
  assert (H : forallb blank chunks = true).
  { apply forallb_forall. intros chunk Hin. unfold blank.
    now rewrite LineFacts.strip_whitespace by auto. }
  rewrite H. now rewrite orb_true_r.
Qed.

Lemma some_chunk_sent (chunks : list string) (i : nat) :
  forallb blank chunks = false ->
  filter (fun p : nat * string => sent (snd p)) (enumerate_from i chunks) <> [].
Proof.
  revert i. induction chunks as [|chunk rest IH]; intros i H; [discriminate|].
  simpl in *. destruct (blank chunk); simpl in *; [now apply IH | discriminate].
Qed.

(** X6. An outage: when every request is answered with one response of
    a status other than 200, [parse_with_llm] returns the error
    messages of the chunks that are not blank, one per line; each
    carries the index of its chunk in [dom_chunks], blank chunks
    counted. *)
Theorem outage_reported_per_chunk (provider api_key : string)
    (chunks : list string) (parse_description : string) (log : list request)
    (setup : provider_setup) (resp : response) :
  (forall log rq, net log rq = Returns resp) ->
  status_code resp <> 200%Z ->
  forallb blank chunks = false ->
  configure provider api_key = Some setup ->
  fst (parse_with_llm net str_exn provider api_key chunks parse_description log)
  = Returns
      (join nl
         (map (fun p => "Error (Chunk " ++ str_of_Z (Z.of_nat (fst p))
                        ++ "): API returned " ++ str_of_Z (status_code resp)
                        ++ " - " ++ text resp)
            (filter (fun p => sent (snd p)) (enumerate_from 0 chunks)))).
Proof.
  intros Hnet Hst Hblank Hsetup.
  destruct (rounds_outage net str_exn provider setup parse_description
              resp chunks Hnet Hst 0 [] log) as (log' & Hrun).
  unfold parse_with_llm. rewrite Hblank, Hsetup.
  destruct chunks as [|c rest]; [discriminate|].
  cbv beta iota. rewrite orb_false_l. unfold bind, lift. rewrite Hrun.
  simpl app. cbn [fst].
  apply final_result_strings.
  intros Hnil. apply map_eq_nil in Hnil.
  now apply (some_chunk_sent (c :: rest) 0 Hblank).
Qed.

(** X8. The one exception that can leave [parse_with_llm] is the
    [TypeError] of the final join, and it leaves only when the loop has
    retained an entry that is not a string. *)
Theorem only_type_error_escapes (provider api_key : string)
    (chunks : list string) (parse_description : string) (log : list request)
    (e : pyexn) :
  fst (parse_with_llm net str_exn provider api_key chunks parse_description log)
  = Raises e ->
  e = TypeError
  /\ exists setup retained log',
       configure provider api_key = Some setup
       /\ process_chunks net str_exn provider setup parse_description 0 chunks [] log
          = (Returns retained, log')
       /\ exists v, In v retained /\ forall s, v <> PStr s.
Proof.
  unfold parse_with_llm.
  destruct (_ || _); [discriminate|].
  destruct (configure provider api_key) as [setup|]; [|discriminate].
  destruct (process_chunks_appends net str_exn provider setup parse_description
              chunks 0 log) as (retained & log' & Hloop).
  unfold bind, lift. rewrite (Hloop []). simpl app. cbn [fst].
  destruct retained as [|v rest]; [discriminate|].
  unfold final_result, join_values.
  destruct (str_items (v :: rest)) as [ss|e'] eqn:E; simpl; [discriminate|].
  intros H. injection H as <-.
  destruct (str_items_raises _ _ E) as (He & w & Hin & Hw).
  split; [assumption|].
  exists setup, (v :: rest), log'. repeat split; eauto.
Qed.

End Whole.

Lemma gemini_without_candidates_witness :
  let setup := mkSetup "gemini-2.0-flash" "https://example.invalid/gemini" [] in
  let reply := Models.ok_json "{}" (PDict [("promptFeedback", PDict [])]) in
  process_chunk (Models.always (Returns reply)) Models.carried_text
    "gemini" setup "prices" 0 "data" [] []
  = (Returns ([] ++ [PStr "Error: Gemini returned no candidates (Safety filter?)"])%list,
     ([] ++ [chunk_request "gemini" setup "prices" "data"])%list).
Proof.
  intros setup reply.
  apply (gemini_without_candidates (Models.always (Returns reply)) Models.carried_text
           "prices" setup 0 "data" [] [] reply [("promptFeedback", PDict [])]);
    (reflexivity || exact I).
Defined.

Lemma one_request_per_chunk_witness :
  let setup := mkSetup "llama3-70b-8192" "https://api.groq.com/openai/v1/chat/completions"
                 [("Content-Type", "application/json"); ("Authorization", "Bearer key")] in
  snd (parse_with_llm Models.field_then_sentinel Models.carried_text
         "groq" "key" ["data1"; "  "; "data2"] "FieldX" [])
  = [chunk_request "groq" setup "FieldX" "data1";
     chunk_request "groq" setup "FieldX" "data2"].
Proof.
  intros setup.
  apply (one_request_per_chunk Models.field_then_sentinel Models.carried_text
           "groq" "key" ["data1"; "  "; "data2"] "FieldX" [] setup
           ltac:(discriminate) eq_refl eq_refl).
Defined.

Lemma blank_chunks_send_nothing_witness :
  parse_with_llm Models.field_then_sentinel Models.carried_text
    "no such provider" "key" ["  "; nl] "FieldX" []
  = (Returns "Error: The text content to parse is empty. Please check your scraping step.",
     []).
Proof.
  apply (blank_chunks_send_nothing Models.field_then_sentinel Models.carried_text
           "no such provider" "key" ["  "; nl] "FieldX" []).
  intros chunk [<- | [<- | []]]; reflexivity.
Defined.

Lemma outage_reported_per_chunk_witness :
  fst (parse_with_llm
         (Models.always (Returns (mkResponse 503 "busy" (Raises ValueError))))
         Models.carried_text "openai" "key" ["a"; " "; "b"] "prices" [])
  = Returns ("Error (Chunk 0): API returned 503 - busy" ++ nl
             ++ "Error (Chunk 2): API returned 503 - busy").
Proof.
  apply (outage_reported_per_chunk
           (Models.always (Returns (mkResponse 503 "busy" (Raises ValueError))))
           Models.carried_text "openai" "key" ["a"; " "; "b"] "prices" []
           (mkSetup "gpt-4o-mini" "https://api.openai.com/v1/chat/completions"
              [("Content-Type", "application/json"); ("Authorization", "Bearer key")])
           (mkResponse 503 "busy" (Raises ValueError)));
    (reflexivity || discriminate).
Defined.

Lemma only_type_error_escapes_witness :
  TypeError = TypeError
  /\ exists setup retained log',
       configure "openai" "key" = Some setup
       /\ process_chunks
            (Models.always
               (Returns (Models.ok_json "" (Models.chat_envelope (PDict [("a", PNone)])))))
            Models.carried_text "openai" setup "prices" 0 ["data"] [] []
          = (Returns retained, log')
       /\ exists v, In v retained /\ forall s, v <> PStr s.
Proof.
  apply (only_type_error_escapes
           (Models.always
              (Returns (Models.ok_json "" (Models.chat_envelope (PDict [("a", PNone)])))))
           Models.carried_text "openai" "key" ["data"] "prices" [] TypeError).
  reflexivity.
Defined.

End ParseLlmMore.

(** ** The fetchers: one request, no request exception passed on *)

Module FetchMore.
Import Py PyStr AdvanceScrape Requests.

Section Fetchers.

Variable net : network.
Variable str_exn : pyexn -> string.

(** X9. [scrape_website] sends exactly one request, the GET of the
    page, and answers a failed one with a string: the only exception
    it lets through is one the GET itself raised and that is no
    [RequestException]. *)
Theorem scrape_website_one_request (url : string) (timeout : Z)
    (log : list request) :
  snd (Scrape.scrape_website net str_exn url timeout log)
  = (log ++ [Scrape.page_request url timeout])%list
  /\ forall e,
       fst (Scrape.scrape_website net str_exn url timeout log) = Raises e ->
       net log (Scrape.page_request url timeout) = Raises e
       /\ is_request_exception e = false.
Proof.
  unfold Scrape.scrape_website, try_except, bind, send, lift, ret.
  destruct (net log (Scrape.page_request url timeout)) as [resp|e0].
  - unfold raise_for_status.
    destruct ((400 <=? status_code resp)%Z && (status_code resp <? 600)%Z);
      simpl; split; try reflexivity; discriminate.
  - destruct (is_request_exception e0) eqn:E; simpl;
      split; try reflexivity; try discriminate.
    intros e H. injection H as <-. auto.
Qed.

(** What one [_get] does, by what the network answers. *)
Lemma get_outcome (endpoint : string) (params : list (string * string))
    (timeout : Z) (log : list request) :
  let rq := mkRequest GET endpoint params None None (Some timeout) in
  snd (_get net str_exn endpoint params timeout log) = (log ++ [rq])%list
  /\ forall e,
       fst (_get net str_exn endpoint params timeout log) = Raises e ->
       (exists msg, e = AdvancedScraperError msg)
       \/ (net log rq = Raises e /\ is_request_exception e = false).
Proof.
  intros rq. unfold _get, try_except, bind, send, lift, ret, raise. fold rq.
  destruct (net log rq) as [resp|e0].
  - unfold raise_for_status.
    destruct ((400 <=? status_code resp)%Z && (status_code resp <? 600)%Z);
      simpl; split; try reflexivity; try discriminate.
    intros e H. injection H as <-. left. eauto.
  - destruct (is_request_exception e0) eqn:E; simpl;
      split; try reflexivity; intros e H; injection H as <-; eauto.
Qed.

(** A call past the guards is one [_get]. *)
Lemma generic_fetch_is_get (url provider key : string) (timeout : Z)
    (options : list (string * pyval)) :
  key <> "" -> In (lower provider) supported ->
  exists endpoint params,
    generic_fetch net str_exn url (Some provider) (Some key) timeout options
    = _get net str_exn endpoint params timeout
    /\ lookup "url" params = Some url
    /\ (lookup "api_key" params = Some key \/ lookup "apikey" params = Some key).
Proof.
  intros Hkey Hin. unfold generic_fetch.
  destruct key as [|c key]; [contradiction|].
  destruct Hin as [H | [H | [H | [H | []]]]]; rewrite <- H; simpl.
  - eexists _, _. split; [reflexivity|]. simpl. auto.
  - unfold fetch_with_scrapingbee.
    destruct (truthy (option_or_false options "render_js"));
      eexists _, _; (split; [reflexivity|]); simpl; auto.
  - eexists _, _. split; [reflexivity|]. simpl. auto.
  - eexists _, _. split; [reflexivity|]. simpl. auto.
Qed.

(** The guards and the dispatch leave nothing else: a call is stopped
    by a guard or is a supported provider with a key. *)
Lemma stopped_or_supported (provider api_key : option string) :
  stopped provider api_key
  \/ exists p key, provider = Some p /\ api_key = Some key
                   /\ key <> "" /\ In (lower p) supported.
Proof.
  destruct provider as [p|]; [|left; now left].
  destruct api_key as [[|c key]|];
    [left; unfold stopped; tauto | | left; unfold stopped; tauto].
  destruct (in_dec string_dec (lower p) supported) as [Hin|Hout].
  - right. exists p, (String c key). repeat split; auto. discriminate.
  - left. unfold stopped. do 4 right. eauto.
Qed.

Lemma stopped_sends_nothing (url : string) (provider api_key : option string)
    (timeout : Z) (options : list (string * pyval)) (log : list request) :
  stopped provider api_key ->
  exists msg,
    generic_fetch net str_exn url provider api_key timeout options log
    = (Raises (AdvancedScraperError msg), log).
Proof.
  intros Hstop.
  destruct provider as [p|];
    [|eexists; apply AdvanceScrapeFacts.no_provider_fails; now left].
  destruct (string_dec (lower p) "none") as [Hn|Hn];
    [eexists; apply AdvanceScrapeFacts.no_provider_fails; right; eauto|].
  destruct (string_dec (lower p) "basic") as [Hb|Hb];
    [eexists; apply AdvanceScrapeFacts.no_provider_fails; right; eauto|].
  destruct api_key as [[|c key]|];
    try (eexists; apply AdvanceScrapeFacts.missing_key_fails; tauto).
  destruct Hstop as [H | [(p' & H & [H' | H']) | [H | [H | (p' & H & Hun)]]]];
    try discriminate; injection H as <-; try contradiction.
  eexists. now apply AdvanceScrapeFacts.unknown_provider_fails.
Qed.

(** X10. [generic_fetch] sends at most one request and never retries;
    a request it sends is a GET with the caller's timeout whose query
    carries the page address and the key. *)
Theorem generic_fetch_one_request (url : string) (provider api_key : option string)
    (timeout : Z) (options : list (string * pyval)) (log : list request) :
  exists requests,
    snd (generic_fetch net str_exn url provider api_key timeout options log)
    = (log ++ requests)%list
    /\ length requests <= 1
    /\ forall rq, In rq requests ->
         exists key, api_key = Some key /\ carries rq url key timeout.
Proof.
  destruct (stopped_or_supported provider api_key)
    as [Hstop | (p & key & -> & -> & Hkey & Hin)].
  - destruct (stopped_sends_nothing url provider api_key timeout options log Hstop)
      as (msg & H).
    exists []. rewrite H. simpl. rewrite app_nil_r.
    repeat split; [lia | contradiction].
  - destruct (generic_fetch_is_get url p key timeout options Hkey Hin)
      as (endpoint & params & Hget & Hurl & Hk).
    rewrite Hget.
    exists [mkRequest GET endpoint params None None (Some timeout)].
    split; [apply get_outcome|]. split; [simpl; lia|].
    intros rq [<- | []]. exists key. unfold carries. simpl. auto.
Qed.

(** X11. No [RequestException] leaves [generic_fetch]: what it raises
    is an [AdvancedScraperError], or an exception of another kind that
    the one GET raised. *)
Theorem generic_fetch_wraps_failures (url : string) (provider api_key : option string)
    (timeout : Z) (options : list (string * pyval)) (log : list request)
    (e : pyexn) :
  fst (generic_fetch net str_exn url provider api_key timeout options log) = Raises e ->
  (exists msg, e = AdvancedScraperError msg)
  \/ (is_request_exception e = false /\ exists rq, net log rq = Raises e).
Proof.
  destruct (stopped_or_supported provider api_key)
    as [Hstop | (p & key & -> & -> & Hkey & Hin)].
  - destruct (stopped_sends_nothing url provider api_key timeout options log Hstop)
      as (msg & H).
    rewrite H. simpl. intros H'. injection H' as <-. left. eauto.
  - destruct (generic_fetch_is_get url p key timeout options Hkey Hin)
      as (endpoint & params & Hget & _).
    rewrite Hget. intros H.
    destruct (proj2 (get_outcome endpoint params timeout log) e H) as [Hw | [Hn Hr]];
      [now left | right; eauto].
Qed.

(** X12. The provider name is read without regard to case: two names
    that lower to the same supported name fetch the same way. *)
Theorem generic_fetch_ignores_case (url p q key : string) (timeout : Z)
    (options : list (string * pyval)) :
  lower p = lower q -> In (lower p) supported -> key <> "" ->
  generic_fetch net str_exn url (Some p) (Some key) timeout options
  = generic_fetch net str_exn url (Some q) (Some key) timeout options.
Proof.
  intros Hpq Hin Hkey. unfold generic_fetch. rewrite <- Hpq.
  destruct key as [|c key]; [contradiction|].
  destruct Hin as [H | [H | [H | [H | []]]]]; rewrite <- H; reflexivity.
Qed.

(** X13. The options reach ScrapingBee only: for any other provider
    the call is the same whatever the options. *)
Theorem options_reach_scrapingbee_only (url : string)
    (provider api_key : option string) (timeout : Z)
    (options options' : list (string * pyval)) :
  (forall p, provider = Some p -> lower p <> "scrapingbee") ->
  generic_fetch net str_exn url provider api_key timeout options
  = generic_fetch net str_exn url provider api_key timeout options'.
Proof.
  intros Hbee. unfold generic_fetch.
  destruct provider as [p|]; [|reflexivity].
  specialize (Hbee p eq_refl). apply String.eqb_neq in Hbee.
  destruct (existsb _ _); [reflexivity|].
  destruct api_key as [[|c key]|]; try reflexivity.
  rewrite Hbee. reflexivity.
Qed.

End Fetchers.

Lemma generic_fetch_wraps_failures_witness :
  (exists msg, AdvancedScraperError "404" = AdvancedScraperError msg)
  \/ (is_request_exception (AdvancedScraperError "404") = false
      /\ exists rq,
           Models.always (Returns (mkResponse 404 "gone" (Raises ValueError))) [] rq
           = Raises (AdvancedScraperError "404")).
Proof.
  apply (generic_fetch_wraps_failures
           (Models.always (Returns (mkResponse 404 "gone" (Raises ValueError))))
           Models.carried_text "https://example.com" (Some "ScrapingDog")
           (Some "secret") DEFAULT_TIMEOUT [] [] (AdvancedScraperError "404")).
  reflexivity.
Defined.

Lemma generic_fetch_ignores_case_witness :
  generic_fetch (Models.always (Returns (mkResponse 200 "<p>hi</p>" (Raises ValueError))))
    Models.carried_text "https://example.com" (Some "ZenRows") (Some "secret")
    DEFAULT_TIMEOUT []
  = generic_fetch (Models.always (Returns (mkResponse 200 "<p>hi</p>" (Raises ValueError))))
      Models.carried_text "https://example.com" (Some "zenrows") (Some "secret")
      DEFAULT_TIMEOUT [].
Proof.
  apply (generic_fetch_ignores_case
           (Models.always (Returns (mkResponse 200 "<p>hi</p>" (Raises ValueError))))
           Models.carried_text "https://example.com" "ZenRows" "zenrows" "secret"
           DEFAULT_TIMEOUT []);
    [reflexivity | simpl; tauto | discriminate].
Defined.

Lemma options_reach_scrapingbee_only_witness :
  generic_fetch (Models.always (Returns (mkResponse 200 "<p>hi</p>" (Raises ValueError))))
    Models.carried_text "https://example.com" (Some "ScraperAPI") (Some "secret")
    DEFAULT_TIMEOUT [("render_js", PBool true)]
  = generic_fetch (Models.always (Returns (mkResponse 200 "<p>hi</p>" (Raises ValueError))))
      Models.carried_text "https://example.com" (Some "ScraperAPI") (Some "secret")
      DEFAULT_TIMEOUT [].
Proof.
  apply (options_reach_scrapingbee_only
           (Models.always (Returns (mkResponse 200 "<p>hi</p>" (Raises ValueError))))
           Models.carried_text "https://example.com" (Some "ScraperAPI") (Some "secret")
           DEFAULT_TIMEOUT [("render_js", PBool true)] []).
  intros p H. injection H as <-. discriminate.
Defined.

End FetchMore.

(** ** The normaliser: what its output looks like *)

Module NormalizerMore.
Import Py PyStr PyStrFacts LineFacts Scrape Body.

(** Induction on a tree with the hypothesis for every child. *)
Lemma node_induction (P : Soup.node -> Prop) :
  (forall s, P (Soup.Text s)) ->
  (forall tag children, Forall P children -> P (Soup.Element tag children)) ->
  forall n, P n.
Proof.
  intros Htext Helement. fix IH 1. intros [s | tag children].
  - apply Htext.
  - apply Helement. induction children as [|child rest IHrest].
    + constructor.
    + constructor; [apply IH | exact IHrest].
Qed.

Lemma forallb_flat_map {A B : Type} (p : B -> bool) (f : A -> list B) (l : list A) :
  Forall (fun a => forallb p (f a) = true) l -> forallb p (flat_map f l) = true.
Proof.
  induction 1 as [|a l Ha _ IH]; simpl; [reflexivity|].
  now rewrite forallb_app, Ha, IH.
Qed.

(** X14. After [tag.extract()] on every script and style element no
    such element is left anywhere in the document, at any depth; the
    same holds for any list of names. *)
Theorem extract_all_leaves_none (names : list string) (doc : list Soup.node) :
  forallb (fun n => negb (has_tag names n))
    (flat_map (Soup.extract_all names) doc) = true.
Proof.
  apply forallb_flat_map, Forall_forall. intros n _.
  induction n as [s | tag children IH] using node_induction; simpl.
  - reflexivity.
  - destruct (Soup.name_in names tag) eqn:E; simpl; [reflexivity|].
    rewrite E. simpl. rewrite andb_true_r. apply negb_true_iff.
    apply not_true_is_false. intros Hex.
    apply existsb_exists in Hex as (m & Hin & Hm).
    apply in_flat_map in Hin as (child & Hchild & Hin).
    rewrite Forall_forall in IH. specialize (IH child Hchild).
    rewrite forallb_forall in IH. specialize (IH m Hin).
    now rewrite Hm in IH.
Qed.

(** X15. A document without script and style elements goes through the
    extraction unchanged, so all of its strings reach the text. *)
Theorem extract_all_keeps_clean_document (names : list string) (doc : list Soup.node) :
  forallb (fun n => negb (has_tag names n)) doc = true ->
  flat_map (Soup.extract_all names) doc = doc.
Proof.
  intros Hdoc.
  assert (Hnode : forall n, has_tag names n = false -> Soup.extract_all names n = [n]).
  { induction n as [s | tag children IH] using node_induction; simpl; [reflexivity|].
    intros H. apply orb_false_iff in H as [Hname Hkids]. rewrite Hname.
    do 2 f_equal.
    induction IH as [|child rest Hchild _ IHrest]; [reflexivity|].
    simpl in Hkids. apply orb_false_iff in Hkids as [Hc Hr].
    simpl. now rewrite (Hchild Hc), (IHrest Hr). }
  induction doc as [|n doc IH]; [reflexivity|].
  simpl in Hdoc. apply andb_true_iff in Hdoc as [Hn Hrest].
  apply negb_true_iff in Hn. simpl. now rewrite (Hnode n Hn), (IH Hrest).
Qed.

Lemma extract_all_keeps_clean_document_witness :
  flat_map (Soup.extract_all ["script"; "style"])
    [Soup.Element "p" [Soup.Text "hi"]; Soup.Text " there"]
  = [Soup.Element "p" [Soup.Text "hi"]; Soup.Text " there"].
Proof.
  apply (extract_all_keeps_clean_document ["script"; "style"]
           [Soup.Element "p" [Soup.Text "hi"]; Soup.Text " there"]).
  reflexivity.
Defined.

(** X16. Whatever the parser makes of the markup, the output of
    [clean_body_content] read line by line is the stripped non-empty
    lines of the text: no line of it is empty, none starts or ends with
    whitespace, and the line step applied again changes nothing. *)
Theorem clean_body_content_lines (html_parser : Soup.parser) (body_content : string) :
  let cleaned := clean_body_content html_parser body_content in
  splitlines cleaned = stripped_lines (text_without_scripts html_parser body_content)
  /\ Forall (fun line => is_empty line = false /\ strip line = line)
       (splitlines cleaned)
  /\ clean_lines cleaned = cleaned.
Proof.
  intros cleaned. unfold cleaned, clean_body_content, clean_lines.
  pose proof (stripped_lines_clean (text_without_scripts html_parser body_content))
    as Hclean.
  rewrite (splitlines_join _ Hclean). repeat split.
  - eapply Forall_impl; [|exact Hclean]. intros line (Hne & Hstrip & _). auto.
  - now rewrite (stripped_lines_join _ Hclean).
Qed.

Lemma find_first_named (name : string) (n found : Soup.node) :
  find_first name n = Some found ->
  exists children, found = Soup.Element name children.
Proof.
  induction n as [s | tag children IH] using node_induction; simpl; [discriminate|].
  destruct (String.eqb_spec tag name) as [->|Hne].
  - intros H. injection H as <-. eauto.
  - induction IH as [|child rest Hchild _ IHrest]; [discriminate|].
    destruct (find_first name child) as [x|]; [|exact IHrest].
    intros H. injection H as <-. now apply Hchild.
Qed.

Lemma find_first_none (name : string) (n : Soup.node) :
  find_first name n = None <-> has_tag [name] n = false.
Proof.
  induction n as [s | tag children IH] using node_induction; simpl; [tauto|].
  rewrite orb_false_r.
  destruct (String.eqb tag name); simpl; [split; discriminate|].
  induction IH as [|child rest Hchild _ IHrest]; simpl; [tauto|].
  destruct (find_first name child) as [x|] eqn:E.
  - split; [discriminate|]. intros H. apply orb_false_iff in H as [Hc _].
    apply Hchild in Hc. discriminate.
  - rewrite IHrest. destruct Hchild as [Hc _]. rewrite (Hc eq_refl). tauto.
Qed.

Lemma find_in_none (name : string) (doc : list Soup.node) :
  existsb (has_tag [name]) doc = false -> find_in name doc = None.
Proof.
  induction doc as [|n doc IH]; simpl; [reflexivity|].
  intros H. apply orb_false_iff in H as [Hn Hdoc].
  apply find_first_none in Hn. now rewrite Hn, IH.
Qed.

Lemma find_app {A : Type} (p : A -> bool) (l1 l2 : list A) :
  List.find p (l1 ++ l2)%list
  = match List.find p l1 with
    | Some x => Some x
    | None => List.find p l2
    end.
Proof.
  induction l1 as [|a l1 IH]; simpl; [reflexivity|].
  now destruct (p a).
Qed.

(** The search of the code finds the first element with the name among
    the nodes in document order. *)
Lemma find_first_nodes (name : string) (n : Soup.node) :
  find_first name n = List.find (named name) (nodes n).
Proof.
  induction n as [s | tag children IH] using node_induction; simpl; [reflexivity|].
  destruct (String.eqb tag name); [reflexivity|].
  induction IH as [|child rest Hchild _ IHrest]; simpl; [reflexivity|].
  rewrite find_app, <- Hchild. now destruct (find_first name child).
Qed.

Lemma find_in_first (name : string) (doc : list Soup.node) :
  find_in name doc = List.find (named name) (flat_map nodes doc).
Proof.
  induction doc as [|n doc IH]; simpl; [reflexivity|].
  rewrite find_app, <- find_first_nodes, IH. reflexivity.
Qed.

Lemma find_in_named (name : string) (doc : list Soup.node) (found : Soup.node) :
  find_in name doc = Some found ->
  exists children, found = Soup.Element name children.
Proof.
  induction doc as [|n doc IH]; simpl; [discriminate|].
  destruct (find_first name n) as [x|] eqn:E; [|exact IH].
  intros H. injection H as <-. now apply find_first_named in E.
Qed.

Section ExtractBody.

Variable html_parser : Soup.parser.
Variable render : Soup.node -> string.

(** X17. [extract_body_content] gives the markup of the first [body]
    element of the parsed page in document order, at whatever depth it
    stands, children and all, and the empty string when the page has no
    [body] element. *)
Theorem extract_body_content_first_body (html_content : string) :
  let page := flat_map nodes (html_parser html_content) in
  extract_body_content html_parser render html_content
  = match List.find (named "body") page with
    | Some body => render body
    | None => ""
    end
  /\ (forall body,
        List.find (named "body") page = Some body ->
        In body page /\ exists children, body = Soup.Element "body" children)
  /\ (List.find (named "body") page = None
      <-> existsb (has_tag ["body"]) (html_parser html_content) = false).
Proof.
  intros page. unfold page, extract_body_content.
  rewrite find_in_first. split; [reflexivity|]. split.
  - intros body H. split; [now apply find_some in H|].
    rewrite <- find_in_first in H.
    now apply find_in_named in H.
  - rewrite <- find_in_first. split; [|apply find_in_none].
    intros H. induction (html_parser html_content) as [|n doc IH]; [reflexivity|].
    simpl in *. destruct (find_first "body" n) eqn:E; [discriminate|].
    apply find_first_none in E. rewrite E. now apply IH.
Qed.

(** X18. A page without a [body] element ends the pipeline before any
    request: its body is the empty string, which (the parser reading
    the empty string as the empty document) cleans to the empty string
    and splits into no chunk, and [parse_with_llm] on no chunk returns
    the empty-content message. *)
Theorem page_without_body_sends_nothing (html_content : string) :
  existsb (has_tag ["body"]) (html_parser html_content) = false ->
  html_parser "" = [] ->
  let cleaned :=
    clean_body_content html_parser
      (extract_body_content html_parser render html_content) in
  cleaned = ""
  /\ split_dom_content cleaned default_max_length = Returns []
  /\ forall net str_exn provider api_key parse_description log,
       ParseLlm.parse_with_llm net str_exn provider api_key [] parse_description log
       = (Returns ParseLlm.empty_content, log).
Proof.
  intros Hno Hempty cleaned.
  assert (Hc : cleaned = "").
  { unfold cleaned, extract_body_content. rewrite (find_in_none _ _ Hno).
    unfold clean_body_content, text_without_scripts. now rewrite Hempty. }
  rewrite Hc. repeat split.
Qed.

End ExtractBody.

Lemma page_without_body_sends_nothing_witness :
  let cleaned :=
    clean_body_content Models.html_fragment_parser
      (extract_body_content Models.html_fragment_parser (fun _ => "<body/>")
         "<div>no body here</div>") in
  cleaned = ""
  /\ split_dom_content cleaned default_max_length = Returns []
  /\ forall net str_exn provider api_key parse_description log,
       ParseLlm.parse_with_llm net str_exn provider api_key [] parse_description log
       = (Returns ParseLlm.empty_content, log).
Proof.
  apply (page_without_body_sends_nothing Models.html_fragment_parser
           (fun _ => "<body/>") "<div>no body here</div>");
    reflexivity.
Defined.

End NormalizerMore.

(** ** The reconstructor past the delimiters *)

Module MainMore.
Import Py PyStr PyStrFacts Main MainFacts.

Section Reconstructor.

Variable read_html : string -> result (list DataFrame).
Variable read_csv : string -> ascii -> result DataFrame.

(** With no separator in the first line the delimited strategy reads
    nothing and finds nothing. *)
Lemma no_candidate_no_parse (header : string) (lines : list string) :
  candidates separators header = [] ->
  try_separators read_csv separators header lines = ([], None).
Proof.
  intros Hnone.
  pose proof (try_separators_order read_csv separators header lines) as H.
  destruct (try_separators read_csv separators header lines) as [tried [df|]].
  - destruct H as (failed & sep & untried & Hc & _).
    rewrite Hnone in Hc. now destruct failed.
  - destruct H as [-> _]. now rewrite Hnone.
Qed.

Lemma past_the_delimiters (parsed_text header : string) (rest : list string) :
  no_table read_html parsed_text ->
  stripped_lines parsed_text = header :: rest ->
  candidates separators header = [] ->
  try_to_dataframe read_html read_csv parsed_text
  = whitespace_or_text (header :: rest).
Proof.
  intros Hhtml Hlines Hnone.
  rewrite (try_to_dataframe_after_html read_html read_csv parsed_text Hhtml), Hlines.
  cbv beta iota zeta. now rewrite no_candidate_no_parse.
Qed.

(** X19. Text without a markup table whose first line holds none of
    the four separators, with at least two lines that all split on
    whitespace into the same number of fields, more than one: the
    fields of the first line name the columns and every other line is
    a row of its fields, none padded, none dropped. *)
Theorem whitespace_columns_table (parsed_text header : string) (rest : list string) :
  no_table read_html parsed_text ->
  stripped_lines parsed_text = header :: rest ->
  candidates separators header = [] ->
  rest <> [] ->
  (1 < length (split header))%nat ->
  Forall (fun line => length (split line) = length (split header)) rest ->
  try_to_dataframe read_html read_csv parsed_text
  = Returns (mkFrame (split header) (map (fun line => map PStr (split line)) rest)).
Proof.
  intros Hhtml Hlines Hnone Hrest Hwide Hsame.
  rewrite (past_the_delimiters parsed_text header rest Hhtml Hlines Hnone).
  unfold whitespace_or_text. simpl map. simpl hd. simpl tl.
  assert (Huniform : forallb (Nat.eqb (length (split header)))
                       (map (@length string) (map split rest)) = true).
  { apply one_length_iff. rewrite map_map. apply Forall_map.
    eapply Forall_impl; [|exact Hsame]. auto. }
  assert (Hcount : (2 <=? length (split header :: map split rest))%nat = true).
  { destruct rest; [contradiction | reflexivity]. }
  rewrite Hcount. unfold one_length. rewrite Huniform.
  apply Nat.ltb_lt in Hwide. rewrite Hwide. cbv iota beta. simpl andb. cbv iota.
  rewrite frame_of_rows_uniform.
  - now rewrite map_map.
  - destruct rest; [contradiction | discriminate].
  - now apply Forall_map.
Qed.

(** X20. Text without a markup table whose first line holds none of
    the four separators falls back to the single column ["text"], one
    row for each non-empty line, when it has one line only, when its
    first line is one field, or when some line has another number of
    fields than the first. *)
Theorem single_column_fallback (parsed_text header : string) (rest : list string) :
  no_table read_html parsed_text ->
  stripped_lines parsed_text = header :: rest ->
  candidates separators header = [] ->
  rest = []
  \/ (length (split header) <= 1)%nat
  \/ Exists (fun line => length (split line) <> length (split header)) rest ->
  try_to_dataframe read_html read_csv parsed_text
  = Returns (mkFrame ["text"] (map (fun line => [PStr line]) (header :: rest))).
Proof.
  intros Hhtml Hlines Hnone Hwhy.
  rewrite (past_the_delimiters parsed_text header rest Hhtml Hlines Hnone).
  unfold whitespace_or_text. simpl map. simpl hd.
  assert (Hguard :
            (2 <=? length (split header :: map split rest))%nat
            && one_length (length (split header) :: map (@length string) (map split rest))
            && (1 <? length (split header))%nat = false).
  { destruct Hwhy as [-> | [Hone | Hdiff]].
    - reflexivity.
    - apply Nat.ltb_ge in Hone. rewrite Hone. apply andb_false_r.
    - assert (Hn : one_length (length (split header)
                               :: map (@length string) (map split rest)) = false).
      { apply not_true_is_false. unfold one_length. intros Hall.
        apply one_length_iff in Hall. rewrite map_map in Hall.
        rewrite Forall_map in Hall.
        apply Exists_exists in Hdiff as (line & Hin & Hne).
        rewrite Forall_forall in Hall. now specialize (Hall line Hin). }
      rewrite Hn. now rewrite andb_false_r. }
  rewrite Hguard. reflexivity.
Qed.

End Reconstructor.

Lemma whitespace_columns_table_witness :
  try_to_dataframe Models.no_tables Models.strict_csv
    ("x y z" ++ nl ++ "1 2 3" ++ nl ++ "4 5 6")
  = Returns (mkFrame (split "x y z")
               (map (fun line => map PStr (split line)) ["1 2 3"; "4 5 6"])).
Proof.
  apply (whitespace_columns_table Models.no_tables Models.strict_csv
           ("x y z" ++ nl ++ "1 2 3" ++ nl ++ "4 5 6") "x y z" ["1 2 3"; "4 5 6"]);
    try reflexivity; try exact I; try discriminate.
  - simpl. lia.
  - repeat constructor.
Defined.

Lemma single_column_fallback_witness :
  try_to_dataframe Models.no_tables Models.strict_csv
    ("just one line" ++ nl ++ "another line")
  = Returns (mkFrame ["text"]
               (map (fun line => [PStr line]) ["just one line"; "another line"])).
Proof.
  apply (single_column_fallback Models.no_tables Models.strict_csv
           ("just one line" ++ nl ++ "another line") "just one line" ["another line"]);
    try reflexivity; try exact I.
  right. right. constructor. simpl. lia.
Defined.

End MainMore.

(** ** The button of the advanced page *)

Module AdvancedFacts.
Import Py PyStr AdvanceScrape Advanced Requests.

Lemma provider_map_supported (provider : provider_option) :
  In (lower (provider_map provider)) supported.
Proof. destruct provider; simpl; tauto. Qed.

Section Click.

Variable net : network.
Variable str_exn : pyexn -> string.
Variable env : Env.environ.
Variable html_parser : Soup.parser.
Variable render : Soup.node -> string.

Local Abbreviation click := (click_advanced net str_exn env html_parser render).

(** X21. The click never raises: whatever the network does, it ends in
    an event of the page.  It completes only when the one GET was
    answered with a status outside 400-599, and then with the cleaned
    body of the text of that answer. *)
Theorem click_advanced_never_raises (url : string) (provider : provider_option)
    (api_key : string) (log : list request) :
  exists event,
    fst (click url provider api_key log) = Returns event
    /\ forall cleaned_content,
         event = Completed cleaned_content ->
         exists rq resp,
           net log rq = Returns resp
           /\ ~ (400 <= status_code resp < 600)%Z
           /\ cleaned_content
              = Scrape.clean_body_content html_parser
                  (Body.extract_body_content html_parser render (text resp)).
Proof.
  unfold click_advanced.
  destruct (is_empty url); [eexists; split; [reflexivity | discriminate]|].
  destruct (is_empty (resolve_key env api_key (provider_map provider))) eqn:Hkey;
    [eexists; split; [reflexivity | discriminate]|].
  assert (Hk : resolve_key env api_key (provider_map provider) <> "")
    by (intros H; rewrite H in Hkey; discriminate).
  destruct (FetchMore.generic_fetch_is_get net str_exn url (provider_map provider)
              _ DEFAULT_TIMEOUT [] Hk (provider_map_supported provider))
    as (endpoint & params & Hget & _).
  unfold try_except, bind. rewrite Hget.
  unfold _get, try_except, bind, send, lift, ret, raise.
  destruct (net log _) as [resp|e] eqn:Hnet.
  - unfold raise_for_status.
    destruct (Z.leb_spec 400 (status_code resp)) as [Hlo|Hlo];
      destruct (Z.ltb_spec (status_code resp) 600) as [Hhi|Hhi]; simpl;
      try (eexists; split; [reflexivity | discriminate]);
      (eexists; split; [reflexivity|]; intros c Hev; injection Hev as <-;
       eexists _, resp; repeat split; [exact Hnet | lia]).
  - destruct (is_request_exception e); simpl;
      [eexists; split; [reflexivity | discriminate]|].
    destruct e; simpl; eexists; split; try reflexivity; discriminate.
Qed.

(** X22. The key of the click is the typed key, stripped, when it is
    not blank, and the provider's environment variable otherwise.
    Without a key the click fails before any request; with one it
    sends exactly one GET that carries the page address and that key,
    so the guards of [generic_fetch] never stop a click. *)
Theorem click_advanced_key (url : string) (provider : provider_option)
    (api_key : string) (log : list request) :
  url <> "" ->
  let key := if is_empty (strip api_key)
             then Env.get_api_key_from_env env (provider_map provider)
             else strip api_key in
  (key = "" ->
   click url provider api_key log
   = (Returns (Failed "Missing API key for selected provider."), log))
  /\ (key <> "" ->
      exists rq,
        snd (click url provider api_key log) = (log ++ [rq])%list
        /\ carries rq url key DEFAULT_TIMEOUT).
Proof.
  intros Hurl key. unfold click_advanced.
  replace (is_empty url) with false by (destruct url; [contradiction | reflexivity]).
  change (resolve_key env api_key (provider_map provider)) with key.
  split; intros Hkey.
  - now rewrite Hkey.
  - replace (is_empty key) with false by (destruct key; [contradiction | reflexivity]).
    destruct (FetchMore.generic_fetch_is_get net str_exn url (provider_map provider)
                key DEFAULT_TIMEOUT [] Hkey (provider_map_supported provider))
      as (endpoint & params & Hget & Hu & Hk).
    exists (mkRequest GET endpoint params None None (Some DEFAULT_TIMEOUT)).
    split; [|unfold carries; simpl; auto].
    unfold try_except, bind. rewrite Hget.
    pose proof (proj1 (FetchMore.get_outcome net str_exn endpoint params
                         DEFAULT_TIMEOUT log)) as Hlog.
    simpl in Hlog.
    destruct (_get net str_exn endpoint params DEFAULT_TIMEOUT log) as [[html|e] log'];
      simpl in *; [now subst|].
    destruct e; simpl; now subst.
Qed.

End Click.

Lemma click_advanced_key_witness :
  let env := fun name => if String.eqb name "ZENROWS_KEY" then Some "from-env" else None in
  let key := if is_empty (strip "  ")
             then Env.get_api_key_from_env env (provider_map ZenRows)
             else strip "  " in
  (key = "" ->
   click_advanced (Models.always (Returns (mkResponse 200 "<body>hi</body>" (Raises ValueError))))
     Models.carried_text env Models.html_fragment_parser (fun _ => "hi")
     "https://example.com" ZenRows "  " []
   = (Returns (Failed "Missing API key for selected provider."), []))
  /\ (key <> "" ->
      exists rq,
        snd (click_advanced
               (Models.always (Returns (mkResponse 200 "<body>hi</body>" (Raises ValueError))))
               Models.carried_text env Models.html_fragment_parser (fun _ => "hi")
               "https://example.com" ZenRows "  " [])
        = ([] ++ [rq])%list
        /\ carries rq "https://example.com" key DEFAULT_TIMEOUT).
Proof.
  intros env.
  apply (click_advanced_key
           (Models.always (Returns (mkResponse 200 "<body>hi</body>" (Raises ValueError))))
           Models.carried_text env Models.html_fragment_parser (fun _ => "hi")
           "https://example.com" ZenRows "  " []).
  discriminate.
Defined.

End AdvancedFacts.
